(** * The agent loop of [agent.py]: a shallow embedding and its properties

    The development follows the layout of the source file:
    - the pieces of the Python runtime the agent relies on ([str.replace],
      [str.split], [int], [str] of an integer, truthiness, [dict.get], the two
      regular expressions, the float product [height * 0.8]);
    - the interaction module ([get_screen_size], [perform_tap],
      [perform_go_back], [perform_scroll]) over an abstract device;
    - the agent core ([main]): the bounded perceive/think/act loop, its
      histories, its run log and the final report.

    Strings are Rocq strings (sequences of 8-bit characters); the text the
    agent handles (bounds literals, shell commands, outcomes) is ASCII.
    Python integers are [Z].  Console output ([print]) is not modelled. *)

From Stdlib Require Import ZArith String Ascii List Bool Lia.
From Stdlib Require Import Floats.SpecFloat.
From stdpp Require Import gmap strings.

Import ListNotations.
Set Warnings "-register-all".
Local Open Scope string_scope.
Local Open Scope Z_scope.

(** ** Python runtime helpers *)

Module Py.

(** Characters. *)

Definition is_digit (c : ascii) : bool :=
  let n := N_of_ascii c in ((48 <=? n) && (n <=? 57))%N.

Definition digit_val (c : ascii) : Z := Z.of_N (N_of_ascii c) - 48.

Definition digit_char (d : Z) : ascii := ascii_of_N (Z.to_N (48 + d)).

(** The characters [int] skips around a literal: space, [\t], [\n], [\v],
    [\f], [\r]. *)
Definition is_space (c : ascii) : bool :=
  let n := N_of_ascii c in ((n =? 32) || ((9 <=? n) && (n <=? 13)))%N.

Definition ascii_eqb (a b : ascii) : bool := Ascii.eqb a b.

(** [str(n)] for an integer. *)

Fixpoint digits_of (fuel : nat) (n : Z) : string :=
  match fuel with
  | O => EmptyString
  | S fuel' =>
      (if n / 10 =? 0 then EmptyString else digits_of fuel' (n / 10))
        +:+ String (digit_char (n mod 10)) EmptyString
  end.

Definition str_nat (n : Z) : string := digits_of (S (Z.to_nat (Z.log2 n))) n.

Definition str_int (z : Z) : string :=
  if z <? 0 then String "-" (str_nat (- z)) else str_nat z.

(** [int(s)] in base 10: optional surrounding white space, an optional sign,
    then decimal digits, where single underscores may separate digits.
    [None] stands for the [ValueError] the interpreter raises. *)

Fixpoint lstrip (s : string) : string :=
  match s with
  | String c r => if is_space c then lstrip r else s
  | EmptyString => EmptyString
  end.

Fixpoint all_space (s : string) : bool :=
  match s with
  | String c r => is_space c && all_space r
  | EmptyString => true
  end.

Fixpoint int_digits (acc : Z) (after_digit : bool) (s : string) : option Z :=
  match s with
  | EmptyString => if after_digit then Some acc else None
  | String c r =>
      if is_digit c then int_digits (acc * 10 + digit_val c) true r
      else if ascii_eqb c "_" then
        (if after_digit then int_digits acc false r else None)
      else if is_space c then
        (if after_digit && all_space r then Some acc else None)
      else None
  end.

Definition int (s : string) : option Z :=
  match lstrip s with
  | String c r =>
      if ascii_eqb c "-" then option_map Z.opp (int_digits 0 false r)
      else if ascii_eqb c "+" then int_digits 0 false r
      else int_digits 0 false (String c r)
  | EmptyString => None
  end.

(** [s.replace("][", ",")], [s.replace("[", "")] and [s.replace("]", "")]:
    occurrences are replaced from left to right, without overlap. *)

Fixpoint replace_close_open (s : string) : string :=
  match s with
  | EmptyString => EmptyString
  | String c r =>
      match r with
      | String c' r' =>
          if ascii_eqb c "]" && ascii_eqb c' "[" then String "," (replace_close_open r')
          else String c (replace_close_open r)
      | EmptyString => String c EmptyString
      end
  end.

Fixpoint remove_char (x : ascii) (s : string) : string :=
  match s with
  | String c r => if ascii_eqb c x then remove_char x r else String c (remove_char x r)
  | EmptyString => EmptyString
  end.

(** [s.split(sep)] for a one-character separator: every occurrence splits,
    empty pieces are kept, and the empty string gives one empty piece. *)

Fixpoint split (sep : ascii) (s : string) : list string :=
  match s with
  | EmptyString => [EmptyString]
  | String c r =>
      if ascii_eqb c sep then EmptyString :: split sep r
      else match split sep r with
           | piece :: pieces => String c piece :: pieces
           | [] => [String c EmptyString]
           end
  end.

(** [range(n)]. *)
Definition range (n : Z) : list Z := map Z.of_nat (seq 0 (Z.to_nat n)).

(** *** Regular expressions

    The two patterns of the source are matched by hand.  In both, every
    [\d+] is followed by a character that is not a digit (or by the end of the
    pattern), so the only way the backtracking matcher succeeds is with each
    [\d+] covering a maximal run of digits. *)

Fixpoint skip_digits (s : string) : string :=
  match s with
  | String c r => if is_digit c then skip_digits r else s
  | EmptyString => EmptyString
  end.

Fixpoint take_digits (s : string) : string :=
  match s with
  | String c r => if is_digit c then String c (take_digits r) else EmptyString
  | EmptyString => EmptyString
  end.

(** [\d+] at the head of [s]: the text after the run, if there is a run. *)
Definition digits1 (s : string) : option string :=
  match s with
  | String c r => if is_digit c then Some (skip_digits r) else None
  | EmptyString => None
  end.

(** A literal at the head of [s]: the text after it. *)
Fixpoint lit (p s : string) : option string :=
  match p with
  | EmptyString => Some s
  | String a p' =>
      match s with
      | String c r => if ascii_eqb a c then lit p' r else None
      | EmptyString => None
      end
  end.

Definition dquote : ascii := "034"%char.

(** [bounds="\[\d+,\d+\]\[\d+,\d+\]"] at the head of [s]. *)
Definition match_bounds (s : string) : option string :=
  r ← lit ("bounds=" +:+ String dquote "[") s;
  r ← digits1 r;
  r ← lit "," r;
  r ← digits1 r;
  r ← lit "][" r;
  r ← digits1 r;
  r ← lit "," r;
  r ← digits1 r;
  lit (String "]" (String dquote EmptyString)) r.

(** [re.sub(pattern, '', s)] for the bounds pattern: scan from the left,
    drop each match and resume after it. *)
Fixpoint sub_bounds_fuel (fuel : nat) (s : string) : string :=
  match fuel with
  | O => EmptyString
  | S fuel' =>
      match match_bounds s with
      | Some rest => sub_bounds_fuel fuel' rest
      | None =>
          match s with
          | String c r => String c (sub_bounds_fuel fuel' r)
          | EmptyString => EmptyString
          end
      end
  end.

Definition sub_bounds (s : string) : string := sub_bounds_fuel (S (String.length s)) s.

(** [re.sub(r'\d', '', s)]. *)
Fixpoint sub_digits (s : string) : string :=
  match s with
  | String c r => if is_digit c then sub_digits r else String c (sub_digits r)
  | EmptyString => EmptyString
  end.

(** [re.search(r'Physical size: (\d+)x(\d+)', s)]: the two groups of the
    leftmost match. *)
Definition match_size (s : string) : option (string * string) :=
  r ← lit "Physical size: " s;
  r' ← digits1 r;
  r'' ← lit "x" r';
  _ ← digits1 r'';
  Some (take_digits r, take_digits r'').

Fixpoint search_size (s : string) : option (string * string) :=
  match match_size s with
  | Some g => Some g
  | None =>
      match s with
      | String _ r => search_size r
      | EmptyString => None
      end
  end.

(** *** Floating point

    [height * 0.8] converts the integer to a binary64 float (an integer whose
    value rounds past the largest float raises [OverflowError]), multiplies,
    and [int] truncates the product towards zero. *)

Definition prec : Z := 53.
Definition emax : Z := 1024.

(** The doubles nearest to 0.8 and 0.2. *)
Definition float_0_8 : spec_float := S754_finite false 7205759403792794 (-53).
Definition float_0_2 : spec_float := S754_finite false 7205759403792794 (-55).

Definition float_of_int (z : Z) : option spec_float :=
  match binary_normalize prec emax z 0 false with
  | S754_infinity _ => None
  | f => Some f
  end.

Definition int_of_float (f : spec_float) : option Z :=
  match f with
  | S754_zero _ => Some 0
  | S754_finite s m e =>
      let v := if 0 <=? e then Z.shiftl (Z.pos m) e else Z.shiftr (Z.pos m) (- e) in
      Some (if s then - v else v)
  | _ => None
  end.

(** [int(h * c)]. *)
Definition int_mul_float (h : Z) (c : spec_float) : option Z :=
  f ← float_of_int h; int_of_float (SFmul prec emax f c).

End Py.

(** ** Values, exceptions and events *)

(** The Python values [json.loads] produces; [None] is [VNone].  A dictionary
    is kept as the list of its bindings, looked up from the front. *)
Inductive value :=
| VNone
| VBool (b : bool)
| VInt (z : Z)
| VFloat (f : spec_float)
| VStr (s : string)
| VList (l : list value)
| VDict (d : list (string * value)).

(** The exceptions the agent can meet. *)
Inductive exn :=
| AttributeError (type_name attr : string)
| InvalidLiteral (piece : string)
| UnpackMismatch (got : nat)
| OverflowError
| DeviceError (detail : string).

Inductive result (A : Type) :=
| Ok (a : A)
| Raise (e : exn).
Arguments Ok {A} a.
Arguments Raise {A} e.

(** One entry of [run_log]. *)
Record StepLog := {
  step : Z;
  screenshot_path : string;
  reflection : value;
  thought : value;
  action : string
}.

(** What the agent asks of its collaborators, in the order it asks. *)
Inductive Event :=
| EvScreenshot
| EvUiDump
| EvAnalyze (image_path task_prompt : string) (history : list string)
            (xml_content : string) (actions_on_this_screen : list string)
| EvShell (cmd : string)
| EvSleep (seconds : Z)
| EvReport (mission : string) (log : list StepLog) (status : string).

Definition is_shell (ev : Event) : bool :=
  match ev with EvShell _ => true | _ => false end.

Definition is_sleep (ev : Event) : bool :=
  match ev with EvSleep _ => true | _ => false end.

Definition is_analyze (ev : Event) : bool :=
  match ev with EvAnalyze _ _ _ _ _ => true | _ => false end.

Definition is_screenshot (ev : Event) : bool :=
  match ev with EvScreenshot => true | _ => false end.

Definition is_swipe (ev : Event) : bool :=
  match ev with
  | EvShell cmd => String.prefix "input swipe" cmd
  | _ => false
  end.

(** Truthiness ([if v], [not v]). *)
Definition truthy (v : value) : bool :=
  match v with
  | VNone => false
  | VBool b => b
  | VInt z => negb (z =? 0)
  | VFloat (S754_zero _) => false
  | VFloat _ => true
  | VStr EmptyString => false
  | VStr _ => true
  | VList [] => false
  | VList _ => true
  | VDict [] => false
  | VDict _ => true
  end.

(** An optional string that is neither [None] nor empty. *)
Definition truthy_str (o : option string) : option string :=
  match o with
  | Some (String c r) => Some (String c r)
  | _ => None
  end.

Definition type_name (v : value) : string :=
  match v with
  | VNone => "NoneType"
  | VBool _ => "bool"
  | VInt _ => "int"
  | VFloat _ => "float"
  | VStr _ => "str"
  | VList _ => "list"
  | VDict _ => "dict"
  end.

(** [v == "literal"]. *)
Definition eq_str (v : value) (s : string) : bool :=
  match v with
  | VStr t => String.eqb t s
  | _ => false
  end.

(** [d.get(key)] and [d.get(key, default)] on the bindings of a dictionary. *)
Fixpoint assoc {A : Type} (d : list (string * A)) (key : string) : option A :=
  match d with
  | [] => None
  | (k, v) :: r => if String.eqb k key then Some v else assoc r key
  end.

Definition get {A : Type} (d : list (string * A)) (key : string) (default : A) : A :=
  match assoc d key with
  | Some v => v
  | None => default
  end.

(** ** Collaborators

    Everything outside the repository: the device behind [ppadb], the model
    behind [analyze_screen], the parsers, and the interpreter's rendering of
    values and exceptions.  [W] is the state of that outside world.
    - [capture]: what [take_screenshot] returns (a path or [None]);
    - [ui_dump]: what [get_ui_xml] returns (the XML text or [None]);
    - [oracle]: what [analyze_screen] returns (the reply text or [None]);
    - [shell]: [device.shell(cmd)], its output or the exception it raises;
    - [json_loads]: [json.loads], [None] for [JSONDecodeError] (any other
      exception of the parser is outside the model);
    - [xml_nodes]: the attribute dictionaries of
      [ET.fromstring(xml).iter('node')], [None] when parsing raises;
    - [str_other]: [str(v)] of a float, list or dictionary;
    - [exn_text]: [str(e)] of an exception. *)
Record Collaborators (W : Type) := {
  capture : W -> option string * W;
  ui_dump : W -> option string * W;
  oracle : string -> string -> list string -> string -> list string -> W -> option string * W;
  shell : string -> W -> result string * W;
  json_loads : string -> option value;
  xml_nodes : string -> option (list (list (string * string)));
  str_other : value -> string;
  exn_text : exn -> string
}.
Arguments capture {W} _ _.
Arguments ui_dump {W} _ _.
Arguments oracle {W} _ _ _ _ _ _ _.
Arguments shell {W} _ _ _.
Arguments json_loads {W} _ _.
Arguments xml_nodes {W} _ _.
Arguments str_other {W} _ _.
Arguments exn_text {W} _ _.

(** The outside world together with the calls made so far. *)
Record Dev (W : Type) := {
  world : W;
  calls : list Event
}.
Arguments world {W} _.
Arguments calls {W} _.

Definition emit {W} (ev : Event) (w : W) (d : Dev W) : Dev W :=
  {| world := w; calls := (calls d ++ [ev])%list |}.

(** [normalized_xml]: the two substitutions of step 2. *)
Definition normalize (xml_content : string) : string :=
  Py.sub_digits (Py.sub_bounds xml_content).

(** ** Interaction module *)

Section Agent.

Context {W : Type} (env : Collaborators W).

(** [str(v)], as an f-string renders it. *)
Definition py_str (v : value) : string :=
  match v with
  | VStr s => s
  | VNone => "None"
  | VBool true => "True"
  | VBool false => "False"
  | VInt z => Py.str_int z
  | _ => str_other env v
  end.

(** [device.shell(cmd)]. *)
Definition device_shell (cmd : string) (d : Dev W) : result string * Dev W :=
  let '(r, w) := shell env cmd (world d) in (r, emit (EvShell cmd) w d).

(** [time.sleep(seconds)]. *)
Definition sleep (seconds : Z) (d : Dev W) : Dev W := emit (EvSleep seconds) (world d) d.

Definition take_screenshot (d : Dev W) : option string * Dev W :=
  let '(r, w) := capture env (world d) in (r, emit EvScreenshot w d).

Definition get_ui_xml (d : Dev W) : option string * Dev W :=
  let '(r, w) := ui_dump env (world d) in (r, emit EvUiDump w d).

Definition analyze_screen (image_path task_prompt : string) (history : list string)
    (xml_content : string) (actions_on_this_screen : list string) (d : Dev W)
    : option string * Dev W :=
  let '(r, w) :=
    oracle env image_path task_prompt history xml_content actions_on_this_screen (world d) in
  (r, emit (EvAnalyze image_path task_prompt history xml_content actions_on_this_screen) w d).

(** [get_screen_size]: [None] stands for the pair [(None, None)]. *)
Definition get_screen_size (d : Dev W) : result (option (Z * Z)) * Dev W :=
  match device_shell "wm size" d with
  | (Raise e, d') => (Raise e, d')
  | (Ok output, d') =>
      match Py.search_size output with
      | None => (Ok None, d')
      | Some (g1, g2) =>
          match Py.int g1, Py.int g2 with
          | Some width, Some height => (Ok (Some (width, height)), d')
          | None, _ => (Raise (InvalidLiteral g1), d')
          | _, None => (Raise (InvalidLiteral g2), d')
          end
      end
  end.

(** [[int(n) for n in pieces]]. *)
Fixpoint ints_of (pieces : list string) : result (list Z) :=
  match pieces with
  | [] => Ok []
  | p :: r =>
      match Py.int p with
      | None => Raise (InvalidLiteral p)
      | Some z =>
          match ints_of r with
          | Ok l => Ok (z :: l)
          | Raise e => Raise e
          end
      end
  end.

(** The coordinates read off a bounds string (the list comprehension of
    [perform_tap]). *)
Definition parse_coords (bounds_str : value) : result (list Z) :=
  match bounds_str with
  | VStr s =>
      ints_of (Py.split ","
                 (Py.remove_char "]" (Py.remove_char "[" (Py.replace_close_open s))))
  | v => Raise (AttributeError (type_name v) "replace")
  end.

(** The tap point: unpacking into four names, then the two midpoints. *)
Definition tap_point (bounds_str : value) : result (Z * Z) :=
  match parse_coords bounds_str with
  | Raise e => Raise e
  | Ok [x1; y1; x2; y2] => Ok ((x1 + x2) / 2, (y1 + y2) / 2)
  | Ok coords => Raise (UnpackMismatch (length coords))
  end.

(** The name given to the tapped element: the first node whose bounds
    attribute equals the string decides. *)
Definition describe_element (bounds_str : value) (xml_content : string) : string :=
  let generic := "element with bounds " +:+ py_str bounds_str in
  match xml_nodes env xml_content with
  | None => generic
  | Some nodes =>
      match find (fun attrib =>
                    match assoc attrib "bounds" with
                    | Some b => eq_str bounds_str b
                    | None => false
                    end) nodes with
      | None => generic
      | Some attrib =>
          match truthy_str (assoc attrib "text"), truthy_str (assoc attrib "content-desc") with
          | Some text, _ => "element with text '" +:+ text +:+ "'"
          | None, Some desc => "element with description '" +:+ desc +:+ "'"
          | None, None => generic
          end
      end
  end.

Definition tap_error (bounds_str : value) (e : exn) : string :=
  "Failed to tap due to invalid bounds: " +:+ py_str bounds_str
    +:+ ". Error: " +:+ exn_text env e.

Definition tap_command (tap_x tap_y : Z) : string :=
  "input tap " +:+ Py.str_int tap_x +:+ " " +:+ Py.str_int tap_y.

Definition perform_tap (bounds_str : value) (xml_content : string) (d : Dev W)
    : string * Dev W :=
  if negb (truthy bounds_str) then ("Failed to tap: bounds string was empty.", d)
  else
    match tap_point bounds_str with
    | Raise e => (tap_error bounds_str e, d)
    | Ok (tap_x, tap_y) =>
        let element_description := describe_element bounds_str xml_content in
        match device_shell (tap_command tap_x tap_y) d with
        | (Ok _, d') => ("Tapped on " +:+ element_description, d')
        | (Raise e, d') => (tap_error bounds_str e, d')
        end
    end.

Definition perform_go_back (d : Dev W) : string * Dev W :=
  match device_shell "input keyevent 4" d with
  | (Ok _, d') => ("Executed 'go back'", d')
  | (Raise e, d') => ("Failed to execute 'go back'. Error: " +:+ exn_text env e, d')
  end.

Definition swipe_command (start_x start_y end_x end_y duration : Z) : string :=
  "input swipe " +:+ Py.str_int start_x +:+ " " +:+ Py.str_int start_y +:+ " "
    +:+ Py.str_int end_x +:+ " " +:+ Py.str_int end_y +:+ " " +:+ Py.str_int duration.

(** The swipe of one branch of [perform_scroll]: from [from * height] to
    [to * height], at half the width. *)
Definition swipe (width height : Z) (from to : spec_float) (done : string) (d : Dev W)
    : result string * Dev W :=
  match Py.int_mul_float height from, Py.int_mul_float height to with
  | Some start_y, Some end_y =>
      match device_shell (swipe_command (width / 2) start_y (width / 2) end_y 500) d with
      | (Ok _, d') => (Ok done, d')
      | (Raise e, d') => (Raise e, d')
      end
  | _, _ => (Raise OverflowError, d)
  end.

Definition perform_scroll (direction : value) (d : Dev W) : result string * Dev W :=
  match get_screen_size d with
  | (Raise e, d') => (Raise e, d')
  | (Ok None, d') => (Ok "Failed to get screen size for scrolling.", d')
  | (Ok (Some (width, height)), d') =>
      if (width =? 0) || (height =? 0) then (Ok "Failed to get screen size for scrolling.", d')
      else if eq_str direction "down" then
        swipe width height Py.float_0_8 Py.float_0_2 "Scrolled down" d'
      else if eq_str direction "up" then
        swipe width height Py.float_0_2 Py.float_0_8 "Scrolled up" d'
      else (Ok ("Scroll direction '" +:+ py_str direction +:+ "' not supported."), d')
  end.

(** ** Agent core *)

(** The state [main] initialises before the loop and updates in it. *)
Record State := {
  dev : Dev W;
  action_history : list string;
  screen_history : gmap string (list string);
  run_log : list StepLog;
  final_status : string
}.

Definition with_dev (st : State) (d : Dev W) : State :=
  {| dev := d;
     action_history := action_history st;
     screen_history := screen_history st;
     run_log := run_log st;
     final_status := final_status st |}.

Definition with_status (st : State) (status : string) : State :=
  {| dev := dev st;
     action_history := action_history st;
     screen_history := screen_history st;
     run_log := run_log st;
     final_status := status |}.

(** How one pass through the loop body ends: the two [break]s, the two
    [continue]s, the fall through to the end of the body, or an exception
    that leaves the loop. *)
Inductive StepOutcome :=
| PerceptionFailed
| OracleUnavailable
| OracleMalformed
| Recorded
| Completed
| Faulted (e : exn).

(** Step 3 of the body: the outcome string of the chosen action. *)
Definition dispatch (status action_type : value) (action : list (string * value))
    (xml_content : string) (d : Dev W) : result string * Dev W :=
  if eq_str status "IN_PROGRESS" then
    if eq_str action_type "TAP" then
      let '(outcome, d') := perform_tap (get action "bounds" VNone) xml_content d in
      (Ok outcome, d')
    else if eq_str action_type "GO_BACK" then
      let '(outcome, d') := perform_go_back d in (Ok outcome, d')
    else if eq_str action_type "SCROLL" then
      perform_scroll (get action "direction" (VStr "down")) d
    else (Ok "No action taken.", d)
  else (Ok "No action taken.", d).

(** Step 4 of the body: both histories and the run log grow by one entry. *)
Definition record (st : State) (step : Z) (screenshot_path normalized_xml : string)
    (analysis_data : list (string * value)) (action_status : string) (d : Dev W) : State :=
  {| dev := d;
     action_history := (action_history st ++ [action_status])%list;
     screen_history :=
       <[normalized_xml := (default [] (screen_history st !! normalized_xml) ++ [action_status])%list]>
         (screen_history st);
     run_log := (run_log st ++
       [{| step := step + 1;
           screenshot_path := screenshot_path;
           reflection := get analysis_data "reflection" (VStr "N/A");
           thought := get analysis_data "thought" (VStr "N/A");
           action := action_status |}])%list;
     final_status := final_status st |}.

(** Steps 3 to 5, once the reply has been parsed. *)
Definition act (st : State) (step : Z) (screenshot_path xml_content normalized_xml : string)
    (analysis_data : value) (d : Dev W) : StepOutcome * State :=
  match analysis_data with
  | VDict data =>
      match get data "action" (VDict []) with
      | VDict action =>
          let action_type := get action "type" VNone in
          let status := get data "status" VNone in
          match dispatch status action_type action xml_content d with
          | (Raise e, d') => (Faulted e, with_dev st d')
          | (Ok action_status, d') =>
              let st' := record st step screenshot_path normalized_xml data action_status d' in
              if eq_str status "COMPLETE" then (Completed, with_status st' "Successful")
              else (Recorded, with_dev st' (sleep 2 d'))
          end
      | v => (Faulted (AttributeError (type_name v) "get"), with_dev st d)
      end
  | v => (Faulted (AttributeError (type_name v) "get"), with_dev st d)
  end.

(** Steps 1 and 2 of the body: what the agent has in hand when it comes to
    act. *)
Inductive Thought :=
| NoPerception
| NoAnalysis
| BadJson
| Analysis (screenshot_path xml_content normalized_xml : string) (analysis_data : value).

Definition think (mission : string) (st : State) : Thought * Dev W :=
  let '(screenshot_path, d1) := take_screenshot (dev st) in
  let '(xml_content, d2) := get_ui_xml d1 in
  match truthy_str screenshot_path, truthy_str xml_content with
  | Some screenshot_path, Some xml_content =>
      let normalized_xml := normalize xml_content in
      let actions_on_this_screen := default [] (screen_history st !! normalized_xml) in
      let '(analysis_string, d3) :=
        analyze_screen screenshot_path mission (action_history st) xml_content
                       actions_on_this_screen d2 in
      match truthy_str analysis_string with
      | None => (NoAnalysis, d3)
      | Some analysis_string =>
          match json_loads env analysis_string with
          | None => (BadJson, d3)
          | Some analysis_data =>
              (Analysis screenshot_path xml_content normalized_xml analysis_data, d3)
          end
      end
  | _, _ => (NoPerception, d2)
  end.

(** The body of the [for] loop. *)
Definition body (mission : string) (step : Z) (st : State) : StepOutcome * State :=
  match think mission st with
  | (NoPerception, d) => (PerceptionFailed, with_dev st d)
  | (NoAnalysis, d) => (OracleUnavailable, with_dev st (sleep 2 d))
  | (BadJson, d) => (OracleMalformed, with_dev st d)
  | (Analysis screenshot_path xml_content normalized_xml analysis_data, d) =>
      act st step screenshot_path xml_content normalized_xml analysis_data d
  end.

(** How the [for] statement is left. *)
Inductive LoopExit :=
| Exhausted
| Broke
| Raised (e : exn).

(** [for step in steps: body], with the outcome of every pass made. *)
Fixpoint loop (mission : string) (steps : list Z) (st : State)
    : LoopExit * list StepOutcome * State :=
  match steps with
  | [] => (Exhausted, [], st)
  | step :: rest =>
      match body mission step st with
      | (Faulted e, st') => (Raised e, [Faulted e], st')
      | (PerceptionFailed, st') => (Broke, [PerceptionFailed], st')
      | (Completed, st') => (Broke, [Completed], st')
      | (o, st') =>
          let '(exit, os, st'') := loop mission rest st' in (exit, o :: os, st'')
      end
  end.

(** The state before the loop, for a device already connected. *)
Definition initial (w : W) : State :=
  {| dev := {| world := w; calls := [] |};
     action_history := [];
     screen_history := ∅;
     run_log := [];
     final_status := "Unknown" |}.

(** The [finally] clause. *)
Definition finish (mission : string) (st : State) : State :=
  match run_log st with
  | [] => st
  | _ :: _ =>
      with_dev st (emit (EvReport mission (run_log st) (final_status st)) (world (dev st)) (dev st))
  end.

(** [main] from the loop on: the loop, its [else] clause, the handler of
    unhandled exceptions, and the [finally] clause. *)
Definition run (mission : string) (max_steps : Z) (w : W) : list StepOutcome * State :=
  let '(exit, outcomes, st) := loop mission (Py.range max_steps) (initial w) in
  let st' :=
    match exit with
    | Exhausted => with_status st "Failed (Max steps reached)"
    | Broke => st
    | Raised e => with_status st ("Failed (Error: " +:+ exn_text env e +:+ ")")
    end in
  (outcomes, finish mission st').

End Agent.

Arguments dev {W} _.
Arguments action_history {W} _.
Arguments screen_history {W} _.
Arguments run_log {W} _.
Arguments final_status {W} _.

(** Outcomes by kind. *)
Definition oracle_failure (o : StepOutcome) : bool :=
  match o with
  | OracleUnavailable | OracleMalformed => true
  | _ => false
  end.

Definition continues (o : StepOutcome) : bool :=
  match o with
  | OracleUnavailable | OracleMalformed | Recorded => true
  | _ => false
  end.

Definition is_recorded (o : StepOutcome) : bool :=
  match o with
  | Recorded => true
  | _ => false
  end.

Fixpoint count {A} (p : A -> bool) (l : list A) : nat :=
  match l with
  | [] => O
  | x :: r => ((if p x then 1 else 0) + count p r)%nat
  end.

(** Outcomes that append to the run log. *)
Definition appends (o : StepOutcome) : bool :=
  match o with
  | Recorded | Completed => true
  | _ => false
  end.

(** [d'] is [d] after some shell commands and nothing else. *)
Definition shell_only {W} (d d' : Dev W) : Prop :=
  exists evs, calls d' = (calls d ++ evs)%list /\ forallb is_shell evs = true.

(** ** Descriptions that differ in their numbers only

    The skeleton of a text keeps every character that is not a digit and
    marks each maximal run of digits by one [TNum]: two texts with the same
    skeleton are the same text up to the value (and the number of digits) of
    each number in it. *)

Inductive token :=
| TNum
| TChr (c : ascii).

Fixpoint skeleton (s : string) : list token :=
  match s with
  | EmptyString => []
  | String c r =>
      if Py.is_digit c then
        match skeleton r with
        | TNum :: t => TNum :: t
        | t => TNum :: t
        end
      else TChr c :: skeleton r
  end.

(** The bounds pattern read on skeletons. *)
Fixpoint tlit (p : string) (t : list token) : option (list token) :=
  match p with
  | EmptyString => Some t
  | String a p' =>
      match t with
      | TChr c :: r => if Py.ascii_eqb a c then tlit p' r else None
      | _ => None
      end
  end.

Definition tnum (t : list token) : option (list token) :=
  match t with
  | TNum :: r => Some r
  | _ => None
  end.

Definition tmatch_bounds (t : list token) : option (list token) :=
  r ← tlit ("bounds=" +:+ String Py.dquote "[") t;
  r ← tnum r;
  r ← tlit "," r;
  r ← tnum r;
  r ← tlit "][" r;
  r ← tnum r;
  r ← tlit "," r;
  r ← tnum r;
  tlit (String "]" (String Py.dquote EmptyString)) r.

Fixpoint no_digit (s : string) : bool :=
  match s with
  | EmptyString => true
  | String c r => negb (Py.is_digit c) && no_digit r
  end.

(** Decimal numerals: digits, with a leading minus sign at most. *)
Fixpoint all_digits (s : string) : bool :=
  match s with
  | EmptyString => true
  | String c r => Py.is_digit c && all_digits r
  end.

Fixpoint digits_val (acc : Z) (s : string) : Z :=
  match s with
  | EmptyString => acc
  | String c r => digits_val (acc * 10 + Py.digit_val c) r
  end.

Definition numeral_char (c : ascii) : bool := Py.is_digit c || Py.ascii_eqb c "-".

Fixpoint numeral (s : string) : bool :=
  match s with
  | EmptyString => true
  | String c r => numeral_char c && numeral r
  end.

(** The canonical bounds literal of a rectangle. *)
Definition bounds_literal (x1 y1 x2 y2 : Z) : string :=
  "[" +:+ Py.str_int x1 +:+ "," +:+ Py.str_int y1 +:+ "]["
      +:+ Py.str_int x2 +:+ "," +:+ Py.str_int y2 +:+ "]".

(** The [analyze_screen] call of a pass that starts in state [st] and has
    perceived the screenshot [p] and the description [x]. *)
Definition analyze_event {W} (mission : string) (st : State (W:=W)) (p x : string) : Event :=
  EvAnalyze p mission (action_history st) x (default [] (screen_history st !! normalize x)).

(** ** A scripted world

    A world that hands out prepared screenshots, descriptions and replies in
    turn, on a device that answers [wm size] with a fixed text and every other
    command with nothing.  It runs the agent on concrete inputs. *)

Module Demo.

Record Script := {
  shots : list (option string);
  dumps : list (option string);
  replies : list (option string);
  size_reply : string
}.

Definition next {A} (l : list (option A)) : option A * list (option A) :=
  match l with
  | [] => (None, [])
  | x :: r => (x, r)
  end.

Definition q (s : string) : string := String Py.dquote (s +:+ String Py.dquote EmptyString).

(** The replies of the scripts, as JSON text, and what [json.loads] makes
    of each. *)
Definition reply_complete : string := "{" +:+ q "status" +:+ ": " +:+ q "COMPLETE" +:+ "}".

Definition reply_paused : string := "{" +:+ q "status" +:+ ": " +:+ q "PAUSED" +:+ "}".

Definition reply_scroll : string :=
  "{" +:+ q "status" +:+ ": " +:+ q "IN_PROGRESS" +:+ ", " +:+ q "action" +:+ ": {"
      +:+ q "type" +:+ ": " +:+ q "SCROLL" +:+ "}}".

Definition reply_tap : string :=
  "{" +:+ q "status" +:+ ": " +:+ q "IN_PROGRESS" +:+ ", " +:+ q "action" +:+ ": {"
      +:+ q "type" +:+ ": " +:+ q "TAP" +:+ ", " +:+ q "bounds" +:+ ": "
      +:+ q "[10,20][30,40]" +:+ "}}".

Definition decoded : list (string * value) :=
  [ (reply_complete, VDict [("status", VStr "COMPLETE")]);
    (reply_paused, VDict [("status", VStr "PAUSED")]);
    (reply_scroll,
     VDict [("status", VStr "IN_PROGRESS"); ("action", VDict [("type", VStr "SCROLL")])]);
    (reply_tap,
     VDict [("status", VStr "IN_PROGRESS");
            ("action", VDict [("type", VStr "TAP"); ("bounds", VStr "[10,20][30,40]")])]) ].

Definition render_exn (e : exn) : string :=
  match e with
  | AttributeError t a => "'" +:+ t +:+ "' object has no attribute '" +:+ a +:+ "'"
  | InvalidLiteral p => "invalid literal for int() with base 10: '" +:+ p +:+ "'"
  | UnpackMismatch n =>
      if (n <? 4)%nat then
        "not enough values to unpack (expected 4, got " +:+ Py.str_int (Z.of_nat n) +:+ ")"
      else "too many values to unpack (expected 4)"
  | OverflowError => "int too large to convert to float"
  | DeviceError m => m
  end.

Definition env : Collaborators Script := {|
  capture := fun w =>
    let '(x, r) := next (shots w) in
    (x, {| shots := r; dumps := dumps w; replies := replies w; size_reply := size_reply w |});
  ui_dump := fun w =>
    let '(x, r) := next (dumps w) in
    (x, {| shots := shots w; dumps := r; replies := replies w; size_reply := size_reply w |});
  oracle := fun _ _ _ _ _ w =>
    let '(x, r) := next (replies w) in
    (x, {| shots := shots w; dumps := dumps w; replies := r; size_reply := size_reply w |});
  shell := fun cmd w => (Ok (if String.eqb cmd "wm size" then size_reply w else ""), w);
  json_loads := fun s => assoc decoded s;
  xml_nodes := fun _ => Some [];
  str_other := fun _ => "...";
  exn_text := render_exn
|}.

Definition screen : string :=
  "<node text=" +:+ q "Item 7" +:+ " bounds=" +:+ q "[0,12][1080,200]" +:+ " />".

Definition screen' : string :=
  "<node text=" +:+ q "Item 12" +:+ " bounds=" +:+ q "[0,212][1080,400]" +:+ " />".

Definition shot : option string := Some "screenshots/screenshot_1.png".

(** A device of 1080 by 1920 pixels, and one that does not tell its size. *)
Definition phone (shots dumps replies : list (option string)) : Script :=
  {| shots := shots; dumps := dumps; replies := replies;
     size_reply := "Physical size: 1080x1920" |}.

Definition mute (shots dumps replies : list (option string)) : Script :=
  {| shots := shots; dumps := dumps; replies := replies; size_reply := "" |}.

Definition device (w : Script) : Dev Script := {| world := w; calls := [] |}.

End Demo.

(** ** Further vocabulary for the properties of the run *)

Definition is_report (ev : Event) : bool :=
  match ev with EvReport _ _ _ => true | _ => false end.

Definition is_uidump (ev : Event) : bool :=
  match ev with EvUiDump => true | _ => false end.

(** Outcomes after which the loop sleeps. *)
Definition delays (o : StepOutcome) : bool :=
  match o with
  | Recorded | OracleUnavailable => true
  | _ => false
  end.

Definition perceived (o : StepOutcome) : bool :=
  match o with
  | PerceptionFailed => false
  | _ => true
  end.

(** The status [main] ends with, read off the last pass made. *)
Definition status_of {W} (env : Collaborators W) (os : list StepOutcome) : string :=
  match last os with
  | Some Completed => "Successful"
  | Some PerceptionFailed => "Unknown"
  | Some (Faulted e) => "Failed (Error: " +:+ exn_text env e +:+ ")"
  | _ => "Failed (Max steps reached)"
  end.

(** The invariant that ties the three stores together: the action history
    lists the actions of the run log, and the outcomes kept for a screen are
    outcomes of the action history, in order. *)
Definition coherent {W} (st : State (W:=W)) : Prop :=
  action_history st = map action (run_log st) /\
  forall fp, sublist (default [] (screen_history st !! fp)) (action_history st).


(** Whether the float products of [perform_scroll] agree with the integer
    fractions for a height. *)
Definition scaling_exact (h : Z) : bool :=
  match Py.int_mul_float h Py.float_0_8, Py.int_mul_float h Py.float_0_2 with
  | Some a, Some b => (a =? 4 * h / 5) && (b =? h / 5)
  | _, _ => false
  end.

(** ** The lists of the prompt

    [analyze_screen] renders the action history, and the past actions of the
    screen, as one line per entry: ["\n".join(f"- {h}" for h in history)],
    with "None yet." for an empty history. *)

Definition newline : ascii := "010"%char.

Fixpoint join (sep : string) (l : list string) : string :=
  match l with
  | [] => EmptyString
  | x :: r =>
      match r with
      | [] => x
      | _ :: _ => x +:+ sep +:+ join sep r
      end
  end.

Definition bullets (items : list string) : string :=
  join (String newline EmptyString) (map (fun h => "- " +:+ h) items).

Definition history_string (history : list string) : string :=
  match history with
  | [] => "None yet."
  | _ :: _ => bullets history
  end.

Fixpoint no_char (x : ascii) (s : string) : bool :=
  match s with
  | EmptyString => true
  | String c r => negb (Py.ascii_eqb c x) && no_char x r
  end.

(** ** The report

    [generate_pdf_report] as the calls it makes on the PDF document, in
    order, when none of them raises.  Only the calls written in the function
    are listed: the page breaks the library inserts by itself when text or an
    image overflows a page are not.  [file_exists] stands for
    [os.path.exists] and [timestamp] for the formatted time of the call. *)

Inductive PdfOp :=
| AddPage
| SetFont (family style : string) (size : Z)
| Cell (w h : Z) (text : string) (align : string)
| MultiCell (w h : Z) (text : value)
| Ln (h : Z)
| Image (path : string) (w : Z)
| MakeDirs (path : string)
| Output (path : string).

Definition is_add_page (op : PdfOp) : bool :=
  match op with AddPage => true | _ => false end.

Definition is_image (op : PdfOp) : bool :=
  match op with Image _ _ => true | _ => false end.

Definition step_ops (file_exists : string -> bool) (i : nat) (entry : StepLog) : list PdfOp :=
  (if (0 <? i)%nat then [AddPage] else [])
  ++ [SetFont "Helvetica" "B" 12;
      Cell 0 10 ("--- Step " +:+ Py.str_int (step entry) +:+ " ---") ""]
  ++ (if file_exists (screenshot_path entry)
      then [Image (screenshot_path entry) 60; Ln 5] else [])
  ++ [SetFont "Helvetica" "B" 10; Cell 0 10 "Reflection:" "";
      SetFont "Helvetica" "" 10; MultiCell 0 5 (reflection entry); Ln 5;
      SetFont "Helvetica" "B" 10; Cell 0 10 "Thought:" "";
      SetFont "Helvetica" "" 10; MultiCell 0 5 (thought entry); Ln 5;
      SetFont "Helvetica" "B" 10; Cell 0 10 "Action:" "";
      SetFont "Helvetica" "" 10; MultiCell 0 5 (VStr (action entry)); Ln 10].

Fixpoint steps_ops (file_exists : string -> bool) (i : nat) (log : list StepLog) : list PdfOp :=
  match log with
  | [] => []
  | entry :: rest => step_ops file_exists i entry ++ steps_ops file_exists (S i) rest
  end.

Definition generate_pdf_report (file_exists : string -> bool) (timestamp : string)
    (mission : string) (log : list StepLog) (status : string) : list PdfOp :=
  [AddPage; SetFont "Helvetica" "" 12;
   SetFont "Helvetica" "B" 16; Cell 0 10 "Agent Run Report" "C"; Ln 10;
   SetFont "Helvetica" "B" 14; Cell 0 10 "Mission" "";
   SetFont "Helvetica" "" 12; MultiCell 0 10 (VStr mission); Ln 10]
  ++ steps_ops file_exists 0 log
  ++ [SetFont "Helvetica" "B" 14; Cell 0 10 "Final Status" "";
      SetFont "Helvetica" "" 12; Cell 0 10 status ""]
  ++ (if file_exists "reports" then [] else [MakeDirs "reports"])
  ++ [Output ("reports/run_report_" +:+ timestamp +:+ ".pdf")].

(** ** A second scripted world

    As the first, with a device whose answers are a function of the command
    (it may raise), replies of more shapes, and a parsed description. *)

Module Bench.

Record Rig := {
  shots : list (option string);
  dumps : list (option string);
  replies : list (option string);
  answer : string -> result string
}.

Definition reply_list : string := "[1, 2]".

Definition decoded : list (string * value) :=
  (Demo.decoded ++ [(reply_list, VList [VInt 1; VInt 2])])%list.

(** The nodes of [Demo.screen]. *)
Definition nodes_of (xml_content : string) : option (list (list (string * string))) :=
  if String.eqb xml_content Demo.screen
  then Some [[("text", "Item 7"); ("bounds", "[0,12][1080,200]")]]
  else None.

Definition env : Collaborators Rig := {|
  capture := fun w =>
    let '(x, r) := Demo.next (shots w) in
    (x, {| shots := r; dumps := dumps w; replies := replies w; answer := answer w |});
  ui_dump := fun w =>
    let '(x, r) := Demo.next (dumps w) in
    (x, {| shots := shots w; dumps := r; replies := replies w; answer := answer w |});
  oracle := fun _ _ _ _ _ w =>
    let '(x, r) := Demo.next (replies w) in
    (x, {| shots := shots w; dumps := dumps w; replies := r; answer := answer w |});
  shell := fun cmd w => (answer w cmd, w);
  json_loads := fun s => assoc decoded s;
  xml_nodes := nodes_of;
  str_other := fun _ => "...";
  exn_text := Demo.render_exn
|}.


Definition online (cmd : string) : result string :=
  Ok (if String.eqb cmd "wm size" then "Physical size: 1080x1920" else "").

Definition rig (answer : string -> result string) (shots dumps replies : list (option string))
    : Rig :=
  {| shots := shots; dumps := dumps; replies := replies; answer := answer |}.

End Bench.

(** The outcomes the dispatcher can produce. *)
Definition known_outcome (s : string) : bool :=
  String.eqb s "No action taken."
  || String.prefix "Tapped on element with " s
  || String.prefix "Failed to tap" s
  || String.eqb s "Executed 'go back'"
  || String.prefix "Failed to execute 'go back'. Error: " s
  || String.eqb s "Scrolled down"
  || String.eqb s "Scrolled up"
  || String.eqb s "Failed to get screen size for scrolling."
  || String.prefix "Scroll direction '" s.

(** * Properties

    ** Normalisation *)

Section Normalisation.

Lemma skeleton_run r :
  match skeleton r with TNum :: t => TNum :: t | t => TNum :: t end
  = TNum :: skeleton (Py.skip_digits r).
Proof.
  induction r as [|c r IH]; [reflexivity|].
  simpl. destruct (Py.is_digit c) eqn:Hc.
  - rewrite IH. reflexivity.
  - simpl. rewrite Hc. reflexivity.
Qed.

Lemma skeleton_digit c r :
  Py.is_digit c = true -> skeleton (String c r) = TNum :: skeleton (Py.skip_digits r).
Proof. intros Hc. simpl. rewrite Hc. apply skeleton_run. Qed.

Lemma skeleton_other c r :
  Py.is_digit c = false -> skeleton (String c r) = TChr c :: skeleton r.
Proof. intros Hc. simpl. rewrite Hc. reflexivity. Qed.

Lemma ascii_eqb_digit a c :
  Py.is_digit a = false -> Py.is_digit c = true -> Py.ascii_eqb a c = false.
Proof.
  intros Ha Hc. unfold Py.ascii_eqb. destruct (Ascii.eqb a c) eqn:E; [|reflexivity].
  apply Ascii.eqb_eq in E. subst. congruence.
Qed.

Lemma lit_skeleton p : no_digit p = true ->
  forall s, option_map skeleton (Py.lit p s) = tlit p (skeleton s).
Proof.
  induction p as [|a p IH]; intros Hp s; [reflexivity|].
  simpl in Hp. apply andb_true_iff in Hp as [Ha Hp]. apply negb_true_iff in Ha.
  destruct s as [|c r]; [reflexivity|].
  destruct (Py.is_digit c) eqn:Hc.
  - rewrite skeleton_digit by assumption. simpl.
    rewrite (ascii_eqb_digit a c Ha Hc). reflexivity.
  - rewrite skeleton_other by assumption. simpl.
    destruct (Py.ascii_eqb a c); [apply IH; assumption | reflexivity].
Qed.

Lemma digits1_skeleton s : option_map skeleton (Py.digits1 s) = tnum (skeleton s).
Proof.
  destruct s as [|c r]; [reflexivity|].
  destruct (Py.is_digit c) eqn:Hc.
  - rewrite skeleton_digit by assumption. simpl. rewrite Hc. reflexivity.
  - rewrite skeleton_other by assumption. simpl. rewrite Hc. reflexivity.
Qed.

Lemma bind_skeleton (x : option string) (f : string -> option string) x' f' :
  option_map skeleton x = x' ->
  (forall r, option_map skeleton (f r) = f' (skeleton r)) ->
  option_map skeleton (x ≫= f) = x' ≫= f'.
Proof. intros <- Hf. destruct x; simpl; [apply Hf | reflexivity]. Qed.

Lemma match_bounds_skeleton s :
  option_map skeleton (Py.match_bounds s) = tmatch_bounds (skeleton s).
Proof.
  unfold Py.match_bounds, tmatch_bounds.
  repeat (apply bind_skeleton; [|intros ?]);
    solve [apply digits1_skeleton | apply lit_skeleton; reflexivity].
Qed.

Lemma lit_length p : forall s r, Py.lit p s = Some r ->
  String.length s = (String.length p + String.length r)%nat.
Proof.
  induction p as [|a p IH]; intros s r H; simpl in *.
  - congruence.
  - destruct s as [|c s]; [discriminate|].
    destruct (Py.ascii_eqb a c); [|discriminate].
    simpl. f_equal. apply IH. assumption.
Qed.

Lemma skip_digits_length s : (String.length (Py.skip_digits s) <= String.length s)%nat.
Proof.
  induction s as [|c s IH]; simpl; [lia|].
  destruct (Py.is_digit c); simpl; lia.
Qed.

Lemma digits1_length s r : Py.digits1 s = Some r -> (String.length r < String.length s)%nat.
Proof.
  destruct s as [|c s]; simpl; [discriminate|].
  destruct (Py.is_digit c); [|discriminate].
  intros [= <-]. pose proof (skip_digits_length s). lia.
Qed.

Lemma match_bounds_length s r :
  Py.match_bounds s = Some r -> (String.length r < String.length s)%nat.
Proof.
  unfold Py.match_bounds. intros H.
  repeat match type of H with
  | _ ≫= _ = Some _ => let E := fresh "E" in apply bind_Some in H as (? & E & H)
  end.
  repeat match goal with
  | E : Py.lit _ _ = Some _ |- _ => apply lit_length in E
  | E : Py.digits1 _ = Some _ |- _ => apply digits1_length in E
  end.
  lia.
Qed.

Lemma sub_bounds_fuel_enough f1 : forall f2 s,
  (String.length s < f1)%nat -> (String.length s < f2)%nat ->
  Py.sub_bounds_fuel f1 s = Py.sub_bounds_fuel f2 s.
Proof.
  induction f1 as [|f1 IH]; intros f2 s H1 H2; [lia|].
  destruct f2 as [|f2]; [lia|]. simpl.
  destruct (Py.match_bounds s) as [rest|] eqn:Hm.
  - apply match_bounds_length in Hm. apply IH; lia.
  - destruct s as [|c r]; [reflexivity|]. simpl in *. f_equal. apply IH; lia.
Qed.

Lemma sub_bounds_match s rest :
  Py.match_bounds s = Some rest -> Py.sub_bounds s = Py.sub_bounds rest.
Proof.
  intros Hm. unfold Py.sub_bounds at 1. simpl. rewrite Hm.
  apply match_bounds_length in Hm. apply sub_bounds_fuel_enough; lia.
Qed.

Lemma sub_bounds_char c r :
  Py.match_bounds (String c r) = None ->
  Py.sub_bounds (String c r) = String c (Py.sub_bounds r).
Proof.
  intros Hm. unfold Py.sub_bounds at 1.
  change (Py.sub_bounds_fuel (S (String.length (String c r))) (String c r))
    with (match Py.match_bounds (String c r) with
          | Some rest => Py.sub_bounds_fuel (String.length (String c r)) rest
          | None => String c (Py.sub_bounds_fuel (String.length (String c r)) r)
          end).
  rewrite Hm. reflexivity.
Qed.

Lemma match_bounds_digit c r : Py.is_digit c = true -> Py.match_bounds (String c r) = None.
Proof.
  intros Hc. unfold Py.match_bounds.
  change ("bounds=" +:+ String Py.dquote "[") with (String "b" ("ounds=" +:+ String Py.dquote "[")).
  cbn [Py.lit]. rewrite (ascii_eqb_digit "b" c) by (reflexivity || assumption).
  reflexivity.
Qed.

Lemma normalize_match s rest :
  Py.match_bounds s = Some rest -> normalize s = normalize rest.
Proof. intros Hm. unfold normalize. rewrite (sub_bounds_match s rest Hm). reflexivity. Qed.

Lemma normalize_digit c r : Py.is_digit c = true -> normalize (String c r) = normalize r.
Proof.
  intros Hc. unfold normalize.
  rewrite sub_bounds_char by (apply match_bounds_digit; assumption).
  simpl. rewrite Hc. reflexivity.
Qed.

Lemma normalize_other c r :
  Py.is_digit c = false -> Py.match_bounds (String c r) = None ->
  normalize (String c r) = String c (normalize r).
Proof.
  intros Hc Hm. unfold normalize. rewrite sub_bounds_char by assumption.
  simpl. rewrite Hc. reflexivity.
Qed.

Lemma normalize_skip_digits r : normalize r = normalize (Py.skip_digits r).
Proof.
  induction r as [|c r IH]; [reflexivity|].
  simpl. destruct (Py.is_digit c) eqn:Hc; [|reflexivity].
  rewrite normalize_digit by assumption. apply IH.
Qed.

Lemma skeleton_nil s : skeleton s = [] -> s = "".
Proof.
  destruct s as [|c r]; [reflexivity|].
  destruct (Py.is_digit c) eqn:Hc.
  - rewrite skeleton_digit by assumption. discriminate.
  - rewrite skeleton_other by assumption. discriminate.
Qed.

Lemma normalize_skeleton n : forall r1 r2,
  (String.length r1 < n)%nat -> skeleton r1 = skeleton r2 -> normalize r1 = normalize r2.
Proof.
  induction n as [|n IH]; intros r1 r2 Hn Hs; [lia|].
  destruct r1 as [|c1 r1].
  - symmetry in Hs. apply skeleton_nil in Hs. subst. reflexivity.
  - destruct r2 as [|c2 r2]; [apply skeleton_nil in Hs; discriminate|].
    destruct (Py.is_digit c1) eqn:H1, (Py.is_digit c2) eqn:H2;
      try rewrite (skeleton_digit c1) in Hs by assumption;
      try rewrite (skeleton_digit c2) in Hs by assumption;
      try rewrite (skeleton_other c1) in Hs by assumption;
      try rewrite (skeleton_other c2) in Hs by assumption;
      try discriminate.
    + injection Hs as Hs.
      rewrite !normalize_digit by assumption.
      rewrite (normalize_skip_digits r1), (normalize_skip_digits r2).
      apply IH; [|assumption].
      pose proof (skip_digits_length r1). simpl in Hn. lia.
    + injection Hs as -> Hs.
      assert (Hsk : skeleton (String c2 r1) = skeleton (String c2 r2))
        by (rewrite !skeleton_other by assumption; congruence).
      pose proof (match_bounds_skeleton (String c2 r1)) as M1.
      pose proof (match_bounds_skeleton (String c2 r2)) as M2.
      rewrite Hsk in M1. rewrite <- M2 in M1. clear M2.
      destruct (Py.match_bounds (String c2 r1)) as [a|] eqn:Ha,
               (Py.match_bounds (String c2 r2)) as [b|] eqn:Hb; try discriminate.
      * injection M1 as M1.
        rewrite (normalize_match _ _ Ha), (normalize_match _ _ Hb).
        apply IH; [|assumption].
        apply match_bounds_length in Ha. lia.
      * rewrite !normalize_other by assumption. f_equal.
        apply IH; [simpl in Hn; lia | assumption].
Qed.

End Normalisation.

(** ** Numerals and bounds literals *)

Section Numerals.

Lemma digit_char_spec d : 0 <= d < 10 ->
  Py.is_digit (Py.digit_char d) = true /\ Py.digit_val (Py.digit_char d) = d.
Proof.
  intros H.
  assert (d = 0 \/ d = 1 \/ d = 2 \/ d = 3 \/ d = 4 \/ d = 5 \/ d = 6 \/ d = 7
          \/ d = 8 \/ d = 9) as Hd by lia.
  repeat destruct Hd as [-> | Hd]; try subst d; split; reflexivity.
Qed.

Lemma digits_val_snoc s : forall acc c,
  digits_val acc (s +:+ String c "") = digits_val acc s * 10 + Py.digit_val c.
Proof. induction s as [|a s IH]; intros acc c; simpl; [reflexivity | apply IH]. Qed.

Lemma all_digits_app s t : all_digits (s +:+ t) = all_digits s && all_digits t.
Proof.
  induction s as [|a s IH]; simpl; [reflexivity|].
  rewrite IH. apply andb_assoc.
Qed.

Lemma digits_of_spec fuel : forall n, 0 <= n < 2 ^ Z.of_nat fuel ->
  all_digits (Py.digits_of fuel n) = true /\ digits_val 0 (Py.digits_of fuel n) = n.
Proof.
  induction fuel as [|fuel IH]; intros n Hn.
  - simpl in *. split; [reflexivity | lia].
  - assert (Hm : 0 <= n mod 10 < 10) by (apply Z.mod_pos_bound; lia).
    destruct (digit_char_spec _ Hm) as [Hd Hv].
    cbn [Py.digits_of]. rewrite all_digits_app, digits_val_snoc, Hv. cbn [all_digits].
    rewrite Hd. cbn [andb]. rewrite andb_true_r.
    destruct (n / 10 =? 0) eqn:Hq.
    + apply Z.eqb_eq in Hq. split; [reflexivity|].
      cbn [digits_val]. pose proof (Z.div_mod n 10). lia.
    + destruct (IH (n / 10)) as [IH1 IH2].
      { rewrite Nat2Z.inj_succ, Z.pow_succ_r in Hn by lia.
        split; [apply Z.div_pos; lia|].
        apply Z.div_lt_upper_bound; lia. }
      split; [assumption|]. rewrite IH2. pose proof (Z.div_mod n 10). lia.
Qed.

Lemma digits_of_nonempty fuel n : Py.digits_of (S fuel) n <> "".
Proof.
  cbn [Py.digits_of]. destruct (if n / 10 =? 0 then "" else Py.digits_of fuel (n / 10)); discriminate.
Qed.

Lemma str_nat_spec n : 0 <= n ->
  all_digits (Py.str_nat n) = true /\ digits_val 0 (Py.str_nat n) = n /\ Py.str_nat n <> "".
Proof.
  intros Hn. unfold Py.str_nat.
  destruct (digits_of_spec (S (Z.to_nat (Z.log2 n))) n) as [H1 H2].
  { split; [assumption|].
    rewrite Nat2Z.inj_succ, Z2Nat.id by apply Z.log2_nonneg.
    destruct (Z.eq_dec n 0) as [->|Hz]; [reflexivity|].
    apply Z.log2_spec. lia. }
  repeat split; try assumption. apply digits_of_nonempty.
Qed.

Lemma int_digits_all_digits s : forall acc b,
  all_digits s = true -> (s <> "" \/ b = true) ->
  Py.int_digits acc b s = Some (digits_val acc s).
Proof.
  induction s as [|c s IH]; intros acc b Hs Hb; simpl in *.
  - destruct Hb as [Hb | ->]; [congruence | reflexivity].
  - apply andb_true_iff in Hs as [Hc Hs]. rewrite Hc. apply IH; auto.
Qed.

Lemma digit_not_space c : Py.is_digit c = true -> Py.is_space c = false.
Proof.
  unfold Py.is_digit, Py.is_space. intros H.
  apply andb_true_iff in H as [H1 H2]. apply N.leb_le in H1, H2.
  apply orb_false_iff. split; [apply N.eqb_neq; lia|].
  apply andb_false_iff. right. apply N.leb_gt. lia.
Qed.

Lemma ascii_eqb_false_of (p : ascii -> bool) c x :
  p c = true -> p x = false -> Py.ascii_eqb c x = false.
Proof.
  intros Hc Hx. unfold Py.ascii_eqb. destruct (Ascii.eqb c x) eqn:E; [|reflexivity].
  apply Ascii.eqb_eq in E. subst. congruence.
Qed.

Lemma int_digit_head c r :
  Py.is_digit c = true -> Py.int (String c r) = Py.int_digits 0 false (String c r).
Proof.
  intros Hc. unfold Py.int. cbn [Py.lstrip]. rewrite (digit_not_space c Hc).
  rewrite !(ascii_eqb_false_of Py.is_digit c) by (assumption || reflexivity).
  reflexivity.
Qed.

Lemma int_str_nat n : 0 <= n -> Py.int (Py.str_nat n) = Some n.
Proof.
  intros Hn. destruct (str_nat_spec n Hn) as (Hd & Hv & Hne).
  destruct (Py.str_nat n) as [|c r] eqn:E; [congruence|].
  pose proof Hd as Hd'. cbn [all_digits] in Hd'. apply andb_true_iff in Hd' as [Hc _].
  rewrite int_digit_head by assumption.
  rewrite int_digits_all_digits by (auto; left; discriminate).
  congruence.
Qed.

Lemma int_minus r : Py.int (String "-" r) = option_map Z.opp (Py.int_digits 0 false r).
Proof. reflexivity. Qed.

Lemma int_str_int z : Py.int (Py.str_int z) = Some z.
Proof.
  unfold Py.str_int. destruct (z <? 0) eqn:Hz.
  - apply Z.ltb_lt in Hz. rewrite int_minus.
    destruct (str_nat_spec (- z)) as (Hd & Hv & Hne); [lia|].
    rewrite int_digits_all_digits by auto. rewrite Hv. simpl. f_equal. lia.
  - apply Z.ltb_ge in Hz. apply int_str_nat. assumption.
Qed.

Lemma all_digits_numeral s : all_digits s = true -> numeral s = true.
Proof.
  induction s as [|c s IH]; simpl; [reflexivity|].
  intros H. apply andb_true_iff in H as [Hc Hs]. unfold numeral_char.
  rewrite Hc, IH by assumption. reflexivity.
Qed.

Lemma numeral_str_int z : numeral (Py.str_int z) = true.
Proof.
  unfold Py.str_int. destruct (z <? 0) eqn:Hz.
  - apply Z.ltb_lt in Hz. destruct (str_nat_spec (- z)) as (Hd & _); [lia|].
    cbn [numeral]. rewrite all_digits_numeral by assumption. reflexivity.
  - apply Z.ltb_ge in Hz. destruct (str_nat_spec z Hz) as (Hd & _).
    apply all_digits_numeral. assumption.
Qed.

Lemma numeral_cons c s : numeral (String c s) = true -> numeral_char c = true /\ numeral s = true.
Proof. simpl. intros H. apply andb_true_iff in H. exact H. Qed.

Lemma replace_close_open_other c r :
  Py.ascii_eqb c "]" = false ->
  Py.replace_close_open (String c r) = String c (Py.replace_close_open r).
Proof.
  intros Hc. destruct r as [|c' r']; [reflexivity|].
  cbn [Py.replace_close_open]. rewrite Hc. reflexivity.
Qed.

Lemma replace_close_open_numeral a : numeral a = true ->
  forall s, Py.replace_close_open (a +:+ s) = a +:+ Py.replace_close_open s.
Proof.
  induction a as [|c a IH]; intros Ha s; [reflexivity|].
  apply numeral_cons in Ha as [Hc Ha].
  change (String c a +:+ s) with (String c (a +:+ s)).
  rewrite replace_close_open_other by (apply (ascii_eqb_false_of numeral_char); auto).
  rewrite IH by assumption. reflexivity.
Qed.

Lemma replace_close_open_pair r :
  Py.replace_close_open (String "]" (String "[" r)) = String "," (Py.replace_close_open r).
Proof. reflexivity. Qed.

Lemma remove_char_app x a : forall b,
  Py.remove_char x (a +:+ b) = Py.remove_char x a +:+ Py.remove_char x b.
Proof.
  induction a as [|c a IH]; intros b; [reflexivity|].
  simpl. destruct (Py.ascii_eqb c x); rewrite IH; reflexivity.
Qed.

Lemma remove_char_numeral x a :
  numeral_char x = false -> numeral a = true -> Py.remove_char x a = a.
Proof.
  intros Hx. induction a as [|c a IH]; intros Ha; [reflexivity|].
  apply numeral_cons in Ha as [Hc Ha]. cbn [Py.remove_char].
  rewrite (ascii_eqb_false_of numeral_char c x) by assumption.
  rewrite IH by assumption. reflexivity.
Qed.

Lemma split_numeral_last a : numeral a = true -> Py.split "," a = [a].
Proof.
  induction a as [|c a IH]; intros Ha; [reflexivity|].
  apply numeral_cons in Ha as [Hc Ha]. cbn [Py.split].
  rewrite (ascii_eqb_false_of numeral_char c ",") by (assumption || reflexivity).
  rewrite IH by assumption. reflexivity.
Qed.

Lemma split_numeral_comma a : numeral a = true ->
  forall s, Py.split "," (a +:+ String "," s) = a :: Py.split "," s.
Proof.
  induction a as [|c a IH]; intros Ha s; [reflexivity|].
  apply numeral_cons in Ha as [Hc Ha].
  change (String c a +:+ String "," s) with (String c (a +:+ String "," s)).
  cbn [Py.split].
  rewrite (ascii_eqb_false_of numeral_char c ",") by (assumption || reflexivity).
  rewrite IH by assumption. reflexivity.
Qed.

Lemma parse_coords_bounds_literal x1 y1 x2 y2 :
  parse_coords (VStr (bounds_literal x1 y1 x2 y2)) = Ok [x1; y1; x2; y2].
Proof.
  unfold parse_coords, bounds_literal.
  pose proof (numeral_str_int x1) as N1. pose proof (numeral_str_int y1) as N2.
  pose proof (numeral_str_int x2) as N3. pose proof (numeral_str_int y2) as N4.
  set (X1 := Py.str_int x1) in *. set (Y1 := Py.str_int y1) in *.
  set (X2 := Py.str_int x2) in *. set (Y2 := Py.str_int y2) in *.
  change ("[" +:+ X1 +:+ "," +:+ Y1 +:+ "][" +:+ X2 +:+ "," +:+ Y2 +:+ "]")
    with (String "[" (X1 +:+ String "," (Y1 +:+ String "]" (String "[" (X2 +:+ String "," (Y2 +:+ "]")))))).
  rewrite replace_close_open_other by reflexivity.
  rewrite replace_close_open_numeral by assumption.
  rewrite replace_close_open_other by reflexivity.
  rewrite replace_close_open_numeral by assumption.
  rewrite replace_close_open_pair.
  rewrite replace_close_open_numeral by assumption.
  rewrite replace_close_open_other by reflexivity.
  rewrite replace_close_open_numeral by assumption.
  change (Py.replace_close_open "]") with "]".
  change (String "[" (X1 +:+ String "," (Y1 +:+ String "," (X2 +:+ String "," (Y2 +:+ "]")))))
    with ("[" +:+ (X1 +:+ "," +:+ (Y1 +:+ "," +:+ (X2 +:+ "," +:+ (Y2 +:+ "]"))))).
  rewrite !remove_char_app.
  change (Py.remove_char "[" "[") with "".
  change (Py.remove_char "[" ",") with ",".
  change (Py.remove_char "[" "]") with "]".
  rewrite !(remove_char_numeral "[") by (assumption || reflexivity).
  change (Py.remove_char "]" "") with "".
  change (Py.remove_char "]" ",") with ",".
  change (Py.remove_char "]" "]") with "".
  rewrite !(remove_char_numeral "]") by (assumption || reflexivity).
  change ("" +:+ X1 +:+ "," +:+ Y1 +:+ "," +:+ X2 +:+ "," +:+ Y2 +:+ "")
    with (X1 +:+ String "," (Y1 +:+ String "," (X2 +:+ String "," (Y2 +:+ "")))).
  assert (Happ : forall s, s +:+ "" = s).
  { induction s as [|c s IH]; [reflexivity|].
    change (String c s +:+ "") with (String c (s +:+ "")). rewrite IH. reflexivity. }
  rewrite Happ.
  rewrite !split_numeral_comma by assumption.
  rewrite split_numeral_last by assumption.
  subst X1 Y1 X2 Y2. cbn [ints_of]. rewrite !int_str_int. reflexivity.
Qed.

End Numerals.

(** ** The dispatcher and the loop *)

Section Loop.
Context {W : Type} (env : Collaborators W).

Lemma device_shell_calls cmd (d : Dev W) :
  calls (snd (device_shell env cmd d)) = (calls d ++ [EvShell cmd])%list.
Proof. unfold device_shell. destruct (shell env cmd (world d)). reflexivity. Qed.

Lemma think_calls mission (st : State) t d : think env mission st = (t, d) ->
  match t with
  | NoPerception => calls d = (calls (dev st) ++ [EvScreenshot; EvUiDump])%list
  | NoAnalysis | BadJson =>
      exists p x, calls d = (calls (dev st) ++ [EvScreenshot; EvUiDump; analyze_event mission st p x])%list
  | Analysis p x n a =>
      n = normalize x /\
      calls d = (calls (dev st) ++ [EvScreenshot; EvUiDump; analyze_event mission st p x])%list
  end.
Proof.
  unfold think, take_screenshot, get_ui_xml, analyze_screen, emit.
  destruct (capture env (world (dev st))) as [sp w1]. cbn [world calls].
  destruct (ui_dump env w1) as [xc w2]. cbn [world calls].
  destruct (truthy_str sp) as [p|]; [destruct (truthy_str xc) as [x|]|].
  - match goal with |- context [oracle ?a ?b ?c ?d ?e ?f ?g] =>
      destruct (oracle a b c d e f g) as [a' w3] end.
    destruct (truthy_str a') as [txt|]; [destruct (json_loads env txt) as [data|]|];
      intros [= <- <-]; cbn [calls]; rewrite <- !app_assoc; simpl; eauto.
  - intros [= <- <-]. cbn [calls]. rewrite <- app_assoc. reflexivity.
  - intros [= <- <-]. cbn [calls]. rewrite <- app_assoc. reflexivity.
Qed.

(** Calls made by the dispatcher are shell commands. *)

Lemma shell_only_refl (d : Dev W) : shell_only d d.
Proof. exists []. rewrite app_nil_r. auto. Qed.

Lemma shell_only_trans (d1 d2 d3 : Dev W) : shell_only d1 d2 -> shell_only d2 d3 -> shell_only d1 d3.
Proof.
  intros (e1 & H1 & F1) (e2 & H2 & F2). exists (e1 ++ e2)%list.
  rewrite H2, H1, <- app_assoc, forallb_app, F1, F2. auto.
Qed.

Lemma device_shell_shell_only cmd d : shell_only d (snd (device_shell env cmd d)).
Proof. exists [EvShell cmd]. rewrite device_shell_calls. auto. Qed.

Lemma get_screen_size_calls d :
  calls (snd (get_screen_size env d)) = (calls d ++ [EvShell "wm size"])%list.
Proof.
  unfold get_screen_size.
  pose proof (device_shell_calls "wm size" d) as H.
  destruct (device_shell env "wm size" d) as [[output|e] d']; cbn [snd] in *; [|assumption].
  destruct (Py.search_size output) as [[g1 g2]|]; [|assumption].
  destruct (Py.int g1), (Py.int g2); assumption.
Qed.

Lemma swipe_shell_only width height from to done d :
  shell_only d (snd (swipe env width height from to done d)).
Proof.
  unfold swipe.
  destruct (Py.int_mul_float height from), (Py.int_mul_float height to);
    try apply shell_only_refl.
  match goal with |- context [device_shell env ?c d] =>
    pose proof (device_shell_shell_only c d) as H;
    destruct (device_shell env c d) as [[?|?] ?] end; exact H.
Qed.

Lemma perform_scroll_shell_only direction d :
  shell_only d (snd (perform_scroll env direction d)).
Proof.
  unfold perform_scroll.
  assert (H : shell_only d (snd (get_screen_size env d))).
  { exists [EvShell "wm size"]. rewrite get_screen_size_calls. auto. }
  destruct (get_screen_size env d) as [[[[w h]|]|e] d']; cbn [snd] in *; try exact H.
  destruct ((w =? 0) || (h =? 0)); [exact H|].
  destruct (eq_str direction "down");
    [eapply shell_only_trans; [exact H | apply swipe_shell_only]|].
  destruct (eq_str direction "up");
    [eapply shell_only_trans; [exact H | apply swipe_shell_only]|].
  exact H.
Qed.

Lemma perform_tap_shell_only bounds_str xml_content d :
  shell_only d (snd (perform_tap env bounds_str xml_content d)).
Proof.
  unfold perform_tap.
  destruct (negb (truthy bounds_str)); [apply shell_only_refl|].
  destruct (tap_point bounds_str) as [[x y]|e]; [|apply shell_only_refl].
  pose proof (device_shell_shell_only (tap_command x y) d) as H.
  destruct (device_shell env (tap_command x y) d) as [[?|?] ?]; exact H.
Qed.

Lemma perform_go_back_shell_only d : shell_only d (snd (perform_go_back env d)).
Proof.
  unfold perform_go_back.
  pose proof (device_shell_shell_only "input keyevent 4" d) as H.
  destruct (device_shell env "input keyevent 4" d) as [[?|?] ?]; exact H.
Qed.

Lemma dispatch_shell_only status action_type action xml_content d :
  shell_only d (snd (dispatch env status action_type action xml_content d)).
Proof.
  unfold dispatch.
  destruct (eq_str status "IN_PROGRESS"); [|apply shell_only_refl].
  destruct (eq_str action_type "TAP").
  { pose proof (perform_tap_shell_only (get action "bounds" VNone) xml_content d) as H.
    destruct (perform_tap env _ xml_content d). exact H. }
  destruct (eq_str action_type "GO_BACK").
  { pose proof (perform_go_back_shell_only d) as H.
    destruct (perform_go_back env d). exact H. }
  destruct (eq_str action_type "SCROLL"); [apply perform_scroll_shell_only|].
  apply shell_only_refl.
Qed.

Lemma dispatch_idle status action_type action xml_content d :
  eq_str status "IN_PROGRESS" = false ->
  dispatch env status action_type action xml_content d = (Ok "No action taken.", d).
Proof. intros H. unfold dispatch. rewrite H. reflexivity. Qed.

Lemma eq_str_true v s : eq_str v s = true -> v = VStr s.
Proof.
  destruct v; simpl; try discriminate. intros H. apply String.eqb_eq in H. congruence.
Qed.

(** One pass of the body, by outcome. *)

Lemma act_inv (st : State) step p x n a d o st' :
  act env st step p x n a d = (o, st') ->
  match o with
  | Faulted e => exists d', shell_only d d' /\ st' = with_dev st d'
  | Recorded =>
      exists data outcome d', a = VDict data /\ shell_only d d' /\
        eq_str (get data "status" VNone) "COMPLETE" = false /\
        st' = with_dev (record st step p n data outcome d') (sleep 2 d')
  | Completed =>
      exists data, a = VDict data /\
        eq_str (get data "status" VNone) "COMPLETE" = true /\
        st' = with_status (record st step p n data "No action taken." d) "Successful"
  | _ => False
  end.
Proof.
  unfold act.
  destruct a as [| | | | |l|data];
    try (intros [= <- <-]; exists d; split; [apply shell_only_refl | reflexivity]).
  destruct (get data "action" (VDict [])) as [| | | | |l|action];
    try (intros [= <- <-]; exists d; split; [apply shell_only_refl | reflexivity]).
  pose proof (dispatch_shell_only (get data "status" VNone) (get action "type" VNone)
                action x d) as Hs.
  destruct (eq_str (get data "status" VNone) "COMPLETE") eqn:Hc.
  - rewrite dispatch_idle
      by (apply eq_str_true in Hc; rewrite Hc; reflexivity).
    intros [= <- <-]. exists data. auto.
  - destruct (dispatch env _ _ action x d) as [[outcome|e] d']; cbn [snd] in Hs;
      intros [= <- <-]; eauto 10.
Qed.

Lemma body_inv mission step (st : State) o st' :
  body env mission step st = (o, st') ->
  match o with
  | PerceptionFailed =>
      exists d, think env mission st = (NoPerception, d) /\ st' = with_dev st d
  | OracleUnavailable =>
      exists d, think env mission st = (NoAnalysis, d) /\ st' = with_dev st (sleep 2 d)
  | OracleMalformed =>
      exists d, think env mission st = (BadJson, d) /\ st' = with_dev st d
  | Faulted e =>
      exists p x n a d d', think env mission st = (Analysis p x n a, d) /\
        shell_only d d' /\ st' = with_dev st d'
  | Recorded =>
      exists p x n data d outcome d',
        think env mission st = (Analysis p x n (VDict data), d) /\ shell_only d d' /\
        eq_str (get data "status" VNone) "COMPLETE" = false /\
        st' = with_dev (record st step p n data outcome d') (sleep 2 d')
  | Completed =>
      exists p x n data d,
        think env mission st = (Analysis p x n (VDict data), d) /\
        eq_str (get data "status" VNone) "COMPLETE" = true /\
        st' = with_status (record st step p n data "No action taken." d) "Successful"
  end.
Proof.
  unfold body. destruct (think env mission st) as [[| | |p x n a] d] eqn:Ht;
    try (intros [= <- <-]; eauto).
  intros Ha. apply act_inv in Ha.
  destruct o; try contradiction.
  - destruct Ha as (data & outcome & d' & -> & Hs & Hc & ->). eauto 12.
  - destruct Ha as (data & -> & Hc & ->). eauto 10.
  - destruct Ha as (d' & Hs & ->). eauto 10.
Qed.

Lemma body_run_log mission step (st : State) o st' :
  body env mission step st = (o, st') ->
  length (run_log st') = (length (run_log st) + (if appends o then 1 else 0))%nat.
Proof.
  intros H. apply body_inv in H. destruct o; simpl.
  - destruct H as (d & _ & ->). simpl. lia.
  - destruct H as (d & _ & ->). simpl. lia.
  - destruct H as (d & _ & ->). simpl. lia.
  - destruct H as (p & x & n & data & d & outcome & d' & _ & _ & _ & ->).
    simpl. rewrite length_app. reflexivity.
  - destruct H as (p & x & n & data & d & _ & _ & ->).
    simpl. rewrite length_app. reflexivity.
  - destruct H as (p & x & n & a & d & d' & _ & _ & ->). simpl. lia.
Qed.

Lemma count_app {A} (p : A -> bool) l1 l2 : count p (l1 ++ l2) = (count p l1 + count p l2)%nat.
Proof. induction l1 as [|x l1 IH]; simpl; [reflexivity | rewrite IH; lia]. Qed.

Lemma count_shell_only (d d' : Dev W) :
  shell_only d d' -> count is_screenshot (calls d') = count is_screenshot (calls d).
Proof.
  intros (evs & -> & Hf). rewrite count_app.
  assert (count is_screenshot evs = 0%nat) as ->; [|lia].
  induction evs as [|ev evs IH]; [reflexivity|].
  simpl in Hf. apply andb_true_iff in Hf as [He Hf].
  destruct ev; try discriminate. simpl. auto.
Qed.

Lemma think_screenshots mission (st : State) t d :
  think env mission st = (t, d) ->
  count is_screenshot (calls d) = S (count is_screenshot (calls (dev st))).
Proof.
  intros H. apply think_calls in H.
  destruct t as [| | |p x n a];
    [|destruct H as (p & x & H)|destruct H as (p & x & H)|destruct H as [_ H]];
    rewrite H, count_app; simpl; lia.
Qed.

Lemma body_screenshots mission step (st : State) o st' :
  body env mission step st = (o, st') ->
  count is_screenshot (calls (dev st')) = S (count is_screenshot (calls (dev st))).
Proof.
  intros H. apply body_inv in H. destruct o.
  - destruct H as (d & Ht & ->). apply think_screenshots in Ht. exact Ht.
  - destruct H as (d & Ht & ->). apply think_screenshots in Ht.
    simpl. rewrite count_app. simpl. lia.
  - destruct H as (d & Ht & ->). apply think_screenshots in Ht. exact Ht.
  - destruct H as (p & x & n & data & d & outcome & d' & Ht & Hs & _ & ->).
    apply think_screenshots in Ht. apply count_shell_only in Hs.
    simpl. rewrite count_app. simpl. lia.
  - destruct H as (p & x & n & data & d & Ht & _ & ->).
    apply think_screenshots in Ht. exact Ht.
  - destruct H as (p & x & n & a & d & d' & Ht & Hs & ->).
    apply think_screenshots in Ht. apply count_shell_only in Hs. simpl. lia.
Qed.

(** The loop. *)

Lemma loop_cons_continue mission step rest (st : State) o st' :
  body env mission step st = (o, st') -> continues o = true ->
  loop env mission (step :: rest) st =
    (let '(exit, os, st'') := loop env mission rest st' in (exit, o :: os, st'')).
Proof. intros H Hc. cbn [loop]. rewrite H. destruct o; try discriminate; reflexivity. Qed.

Lemma loop_cons_stop mission step rest (st : State) o st' :
  body env mission step st = (o, st') -> continues o = false ->
  loop env mission (step :: rest) st =
    (match o with Faulted e => Raised e | _ => Broke end, [o], st').
Proof. intros H Hc. cbn [loop]. rewrite H. destruct o; try discriminate; reflexivity. Qed.

Lemma loop_app mission l1 : forall l2 (st : State),
  loop env mission (l1 ++ l2) st =
    match loop env mission l1 st with
    | (Exhausted, os1, st1) =>
        let '(exit, os2, st2) := loop env mission l2 st1 in (exit, (os1 ++ os2)%list, st2)
    | r => r
    end.
Proof.
  induction l1 as [|step l1 IH]; intros l2 st.
  - cbn [loop app]. destruct (loop env mission l2 st) as [[exit os] st']. reflexivity.
  - change ((step :: l1) ++ l2)%list with (step :: (l1 ++ l2))%list.
    destruct (body env mission step st) as [o st'] eqn:Hb.
    destruct (continues o) eqn:Hc.
    + rewrite !(loop_cons_continue _ _ _ _ _ _ Hb Hc), IH.
      destruct (loop env mission l1 st') as [[[| |e] os1] st1]; try reflexivity.
      destruct (loop env mission l2 st1) as [[exit os2] st2]. reflexivity.
    + rewrite !(loop_cons_stop _ _ _ _ _ _ Hb Hc). destruct o; try discriminate; reflexivity.
Qed.

Lemma loop_inv mission steps : forall (st : State) exit os st',
  loop env mission steps st = (exit, os, st') ->
  (length os <= length steps)%nat /\
  length (run_log st') = (length (run_log st) + count appends os)%nat /\
  count is_screenshot (calls (dev st')) =
    (count is_screenshot (calls (dev st)) + length os)%nat /\
  (exit = Exhausted -> forallb continues os = true /\ length os = length steps) /\
  (forallb continues os = true -> exit = Exhausted).
Proof.
  induction steps as [|step rest IH]; intros st exit os st' H.
  - cbn [loop] in H. injection H as <- <- <-. simpl. repeat split; auto; lia.
  - destruct (body env mission step st) as [o st1] eqn:Hb.
    pose proof (body_run_log _ _ _ _ _ Hb) as Hr.
    pose proof (body_screenshots _ _ _ _ _ Hb) as Hs.
    destruct (continues o) eqn:Hc.
    + rewrite (loop_cons_continue _ _ _ _ _ _ Hb Hc) in H.
      destruct (loop env mission rest st1) as [[exit' os'] st2] eqn:Hl.
      injection H as <- <- <-.
      destruct (IH _ _ _ _ Hl) as (I1 & I2 & I3 & I4 & I5).
      cbn [length forallb count]. rewrite Hc. cbn [andb].
      split; [lia|]. split; [lia|]. split; [lia|]. split; [|exact I5].
      intros He. destruct (I4 He). split; [assumption | lia].
    + rewrite (loop_cons_stop _ _ _ _ _ _ Hb Hc) in H. injection H as <- <- <-.
      cbn [length forallb count]. rewrite Hc. cbn [andb].
      split; [lia|]. split; [lia|]. split; [lia|].
      split; [destruct o; discriminate | discriminate].
Qed.

Lemma count_continues os :
  forallb continues os = true ->
  (count appends os + count oracle_failure os)%nat = length os.
Proof.
  induction os as [|o os IH]; [reflexivity|].
  cbn [forallb]. intros H. apply andb_true_iff in H as [Ho H]. specialize (IH H).
  destruct o; try discriminate; simpl in *; lia.
Qed.

Lemma range_length n : length (Py.range n) = Z.to_nat n.
Proof. unfold Py.range. rewrite length_map, length_seq. reflexivity. Qed.

Lemma range_split (k : nat) n : Z.of_nat k < n ->
  exists rest, Py.range n = (Py.range (Z.of_nat k) ++ Z.of_nat k :: rest)%list.
Proof.
  intros H. unfold Py.range. rewrite Nat2Z.id.
  replace (Z.to_nat n) with (k + S (Z.to_nat n - S k))%nat by lia.
  rewrite seq_app, map_app. cbn [seq map]. eauto.
Qed.

(** A prefix of the run that ends in a pass that leaves the loop. *)
Lemma loop_prefix_stop mission max_steps (k : nat) (st0 st : State) os o st' :
  Z.of_nat k < max_steps ->
  loop env mission (Py.range (Z.of_nat k)) st0 = (Exhausted, os, st) ->
  body env mission (Z.of_nat k) st = (o, st') -> continues o = false ->
  loop env mission (Py.range max_steps) st0 =
    (match o with Faulted e => Raised e | _ => Broke end, (os ++ [o])%list, st').
Proof.
  intros Hk Hl Hb Hc. destruct (range_split k max_steps Hk) as [rest ->].
  rewrite loop_app, Hl, (loop_cons_stop _ _ _ _ _ _ Hb Hc). reflexivity.
Qed.

Lemma loop_prefix_log mission (k : nat) (w : W) os st :
  loop env mission (Py.range (Z.of_nat k)) (initial w) = (Exhausted, os, st) ->
  length os = k /\ length (run_log st) = (k - count oracle_failure os)%nat.
Proof.
  intros Hl. destruct (loop_inv _ _ _ _ _ _ Hl) as (_ & Hr & _ & He & _).
  destruct (He eq_refl) as [Hc Hn]. rewrite range_length, Nat2Z.id in Hn.
  pose proof (count_continues os Hc). cbn [initial run_log length] in Hr. split; lia.
Qed.

End Loop.

(** ** The claims *)

Section Claims.
Context {W : Type} (env : Collaborators W).

Lemma parse_coords_truthy bounds_str coords :
  parse_coords bounds_str = Ok coords -> truthy bounds_str = true.
Proof.
  destruct bounds_str as [| | | |s| |]; try discriminate.
  destruct s; [discriminate | reflexivity].
Qed.

Lemma tap_point_of_coords bounds_str x1 y1 x2 y2 :
  parse_coords bounds_str = Ok [x1; y1; x2; y2] ->
  tap_point bounds_str = Ok ((x1 + x2) / 2, (y1 + y2) / 2).
Proof. intros H. unfold tap_point. rewrite H. reflexivity. Qed.

Lemma tap_point_failure bounds_str :
  (forall x1 y1 x2 y2, parse_coords bounds_str <> Ok [x1; y1; x2; y2]) ->
  exists e, tap_point bounds_str = Raise e.
Proof.
  intros H. unfold tap_point.
  destruct (parse_coords bounds_str) as [coords|e] eqn:E; [|eauto].
  destruct coords as [|x1 [|y1 [|x2 [|y2 [|z r]]]]]; eauto.
  exfalso. eapply H. reflexivity.
Qed.

Lemma perform_tap_calls bounds_str xml_content (d : Dev W) x1 y1 x2 y2 :
  parse_coords bounds_str = Ok [x1; y1; x2; y2] ->
  calls (snd (perform_tap env bounds_str xml_content d)) =
    (calls d ++ [EvShell (tap_command ((x1 + x2) / 2) ((y1 + y2) / 2))])%list.
Proof.
  intros H. unfold perform_tap.
  rewrite (parse_coords_truthy _ _ H), (tap_point_of_coords _ _ _ _ _ H). cbn [negb].
  pose proof (device_shell_calls env (tap_command ((x1 + x2) / 2) ((y1 + y2) / 2)) d) as Hc.
  destruct (device_shell env _ d) as [[out|e] d']; exact Hc.
Qed.

Lemma perform_tap_failure bounds_str xml_content (d : Dev W) e :
  tap_point bounds_str = Raise e ->
  snd (perform_tap env bounds_str xml_content d) = d /\
  String.prefix "Failed to tap" (fst (perform_tap env bounds_str xml_content d)) = true.
Proof.
  intros H. unfold perform_tap. rewrite H.
  destruct (negb (truthy bounds_str)); split; reflexivity.
Qed.

(** C7: a bounds string that reads as four integers makes [perform_tap] issue
    exactly one device command, the tap at the floored midpoint of the
    rectangle; the literal of every rectangle reads as its four integers, and
    [[10,20][30,40]] gives the tap at (20, 30); a bounds value that does not
    read as four integers gives an outcome that starts with "Failed to tap"
    and leaves the device untouched. *)
Theorem perform_tap_midpoint (xml_content : string) (d : Dev W) :
  (forall bounds_str x1 y1 x2 y2,
      parse_coords bounds_str = Ok [x1; y1; x2; y2] ->
      calls (snd (perform_tap env bounds_str xml_content d)) =
        (calls d ++ [EvShell (tap_command ((x1 + x2) / 2) ((y1 + y2) / 2))])%list) /\
  (forall x1 y1 x2 y2,
      parse_coords (VStr (bounds_literal x1 y1 x2 y2)) = Ok [x1; y1; x2; y2]) /\
  calls (snd (perform_tap env (VStr "[10,20][30,40]") xml_content d)) =
    (calls d ++ [EvShell "input tap 20 30"])%list /\
  (forall bounds_str,
      (forall x1 y1 x2 y2, parse_coords bounds_str <> Ok [x1; y1; x2; y2]) ->
      snd (perform_tap env bounds_str xml_content d) = d /\
      String.prefix "Failed to tap" (fst (perform_tap env bounds_str xml_content d)) = true).
Proof.
  split; [|split; [|split]].
  - intros. apply perform_tap_calls. assumption.
  - apply parse_coords_bounds_literal.
  - apply (perform_tap_calls (VStr "[10,20][30,40]") xml_content d 10 20 30 40). reflexivity.
  - intros bounds_str H. destruct (tap_point_failure _ H) as [e He].
    eapply perform_tap_failure. exact He.
Qed.

Lemma perform_scroll_sized direction (d d' : Dev W) width height :
  get_screen_size env d = (Ok (Some (width, height)), d') ->
  width <> 0 -> height <> 0 ->
  perform_scroll env direction d =
    if eq_str direction "down" then
      swipe env width height Py.float_0_8 Py.float_0_2 "Scrolled down" d'
    else if eq_str direction "up" then
      swipe env width height Py.float_0_2 Py.float_0_8 "Scrolled up" d'
    else (Ok ("Scroll direction '" +:+ py_str env direction +:+ "' not supported."), d').
Proof.
  intros H Hw Hh. unfold perform_scroll. rewrite H.
  apply Z.eqb_neq in Hw, Hh. rewrite Hw, Hh. reflexivity.
Qed.

Lemma perform_scroll_unsized direction (d d' : Dev W) :
  get_screen_size env d = (Ok None, d') ->
  perform_scroll env direction d = (Ok "Failed to get screen size for scrolling.", d').
Proof. intros H. unfold perform_scroll. rewrite H. reflexivity. Qed.

(** C2, as amended: for a direction other than "down" and "up",
    [perform_scroll] makes exactly one device call, the screen size query
    [wm size], and no swipe; with a non-zero width and height it returns
    "Scroll direction '...' not supported.", and without a size it returns
    "Failed to get screen size for scrolling.". *)
Theorem perform_scroll_unsupported (direction : value) (d : Dev W) :
  eq_str direction "down" = false -> eq_str direction "up" = false ->
  calls (snd (perform_scroll env direction d)) = (calls d ++ [EvShell "wm size"])%list /\
  (forall width height d',
      get_screen_size env d = (Ok (Some (width, height)), d') ->
      width <> 0 -> height <> 0 ->
      perform_scroll env direction d =
        (Ok ("Scroll direction '" +:+ py_str env direction +:+ "' not supported."), d')) /\
  (forall d',
      get_screen_size env d = (Ok None, d') ->
      perform_scroll env direction d = (Ok "Failed to get screen size for scrolling.", d')).
Proof.
  intros Hd Hu. split; [|split].
  - pose proof (get_screen_size_calls env d) as Hc. unfold perform_scroll.
    destruct (get_screen_size env d) as [[[[w h]|]|e] d']; cbn [snd] in *; try exact Hc.
    destruct ((w =? 0) || (h =? 0)); [exact Hc|]. rewrite Hd, Hu. exact Hc.
  - intros width height d' H Hw Hh.
    rewrite (perform_scroll_sized _ _ _ _ _ H Hw Hh), Hd, Hu. reflexivity.
  - intros d' H. apply perform_scroll_unsized. exact H.
Qed.

Lemma swipe_calls width height from to done (d : Dev W) start_y end_y :
  Py.int_mul_float height from = Some start_y ->
  Py.int_mul_float height to = Some end_y ->
  calls (snd (swipe env width height from to done d)) =
    (calls d ++ [EvShell (swipe_command (width / 2) start_y (width / 2) end_y 500)])%list /\
  (forall out w',
      shell env (swipe_command (width / 2) start_y (width / 2) end_y 500) (world d) = (Ok out, w') ->
      fst (swipe env width height from to done d) = Ok done).
Proof.
  intros Hf Ht. unfold swipe. rewrite Hf, Ht.
  pose proof (device_shell_calls env (swipe_command (width / 2) start_y (width / 2) end_y 500) d) as Hc.
  split.
  - destruct (device_shell env _ d) as [[out|e] d']; exact Hc.
  - intros out w' Hs. unfold device_shell. rewrite Hs. reflexivity.
Qed.

(** C10, as amended: a SCROLL action without a direction is dispatched as
    [perform_scroll] with "down".  When the device reports no size, or a zero
    width or height, the outcome is "Failed to get screen size for
    scrolling." after the size query alone.  When it reports a non-zero width
    and height for which [int(height * 0.8)] and [int(height * 0.2)] are
    defined, the calls are the size query and the downward swipe, from
    [int(height * 0.8)] to [int(height * 0.2)] at half the width in 500 ms,
    and the outcome is "Scrolled down" when the swipe command returns. *)
Theorem scroll_defaults_to_down (fields : list (string * value)) (xml_content : string)
    (d : Dev W) :
  assoc fields "direction" = None ->
  dispatch env (VStr "IN_PROGRESS") (VStr "SCROLL") fields xml_content d =
    perform_scroll env (VStr "down") d /\
  (forall d1,
      get_screen_size env d = (Ok None, d1) ->
      dispatch env (VStr "IN_PROGRESS") (VStr "SCROLL") fields xml_content d =
        (Ok "Failed to get screen size for scrolling.", d1) /\
      calls d1 = (calls d ++ [EvShell "wm size"])%list) /\
  (forall width height d1,
      get_screen_size env d = (Ok (Some (width, height)), d1) ->
      width = 0 \/ height = 0 ->
      dispatch env (VStr "IN_PROGRESS") (VStr "SCROLL") fields xml_content d =
        (Ok "Failed to get screen size for scrolling.", d1) /\
      calls d1 = (calls d ++ [EvShell "wm size"])%list) /\
  (forall width height d1 start_y end_y,
      get_screen_size env d = (Ok (Some (width, height)), d1) ->
      width <> 0 -> height <> 0 ->
      Py.int_mul_float height Py.float_0_8 = Some start_y ->
      Py.int_mul_float height Py.float_0_2 = Some end_y ->
      calls (snd (dispatch env (VStr "IN_PROGRESS") (VStr "SCROLL") fields xml_content d)) =
        (calls d ++ [EvShell "wm size";
                     EvShell (swipe_command (width / 2) start_y (width / 2) end_y 500)])%list /\
      (forall out w',
          shell env (swipe_command (width / 2) start_y (width / 2) end_y 500) (world d1)
            = (Ok out, w') ->
          fst (dispatch env (VStr "IN_PROGRESS") (VStr "SCROLL") fields xml_content d) =
            Ok "Scrolled down")).
Proof.
  intros Ha.
  assert (Hd : dispatch env (VStr "IN_PROGRESS") (VStr "SCROLL") fields xml_content d =
               perform_scroll env (VStr "down") d).
  { unfold dispatch, get. rewrite Ha. reflexivity. }
  rewrite Hd. split; [reflexivity|].
  pose proof (get_screen_size_calls env d) as Hg.
  split; [|split].
  - intros d1 Hs. rewrite Hs in Hg. split; [|exact Hg].
    apply perform_scroll_unsized. exact Hs.
  - intros width height d1 Hs Hz. rewrite Hs in Hg. split; [|exact Hg].
    unfold perform_scroll. rewrite Hs.
    assert ((width =? 0) || (height =? 0) = true) as ->; [|reflexivity].
    apply orb_true_iff. destruct Hz as [-> | ->]; [left | right]; reflexivity.
  - intros width height d1 start_y end_y Hs Hw Hh H8 H2.
    rewrite (perform_scroll_sized _ _ _ _ _ Hs Hw Hh).
    change (eq_str (VStr "down") "down") with true. cbn iota.
    destruct (swipe_calls width height Py.float_0_8 Py.float_0_2 "Scrolled down" d1 _ _ H8 H2)
      as [Hc Ho].
    split; [|exact Ho].
    rewrite Hc. rewrite Hs in Hg. cbn [snd] in Hg. rewrite Hg, <- app_assoc. reflexivity.
Qed.

Lemma body_oracle_failure mission step (st : State) :
  fst (think env mission st) = NoAnalysis \/ fst (think env mission st) = BadJson ->
  oracle_failure (fst (body env mission step st)) = true /\
  action_history (snd (body env mission step st)) = action_history st /\
  screen_history (snd (body env mission step st)) = screen_history st /\
  run_log (snd (body env mission step st)) = run_log st.
Proof.
  unfold body. destruct (think env mission st) as [t d]. cbn [fst].
  intros [-> | ->]; repeat split; reflexivity.
Qed.

(** C4, as amended: a pass in which [analyze_screen] gives nothing, or gives
    text that is not JSON ([json.loads] raises [JSONDecodeError]), leaves
    [action_history], [screen_history] and [run_log] as they were, and the
    loop goes on with the steps that remain: the step of that pass is
    spent. *)
Theorem oracle_failure_consumes_step (mission : string) (step : Z) (rest : list Z) (st : State) :
  fst (think env mission st) = NoAnalysis \/ fst (think env mission st) = BadJson ->
  oracle_failure (fst (body env mission step st)) = true /\
  action_history (snd (body env mission step st)) = action_history st /\
  screen_history (snd (body env mission step st)) = screen_history st /\
  run_log (snd (body env mission step st)) = run_log st /\
  loop env mission (step :: rest) st =
    (let '(exit, os, st') := loop env mission rest (snd (body env mission step st)) in
     (exit, fst (body env mission step st) :: os, st')).
Proof.
  intros H. destruct (body_oracle_failure mission step st H) as (Ho & Ha & Hs & Hr).
  repeat (split; [assumption|]).
  destruct (body env mission step st) as [o st'] eqn:Hb. cbn [fst snd] in *.
  apply (loop_cons_continue env _ _ _ _ _ _ Hb). destruct o; try discriminate; reflexivity.
Qed.





(** C1, as amended: when the run reaches pass [k + 1] within the budget and
    the screenshot or the description is missing there, the loop stops with
    both histories and the run log as they were, after the two perception
    calls and without a call to [analyze_screen]; the run log has [k] records
    less one for every earlier pass that was an Oracle failure, and the
    report is made from these records exactly when there is one. *)
Theorem perception_failure_ends_run (mission : string) (max_steps : Z) (w : W) (k : nat)
    (os : list StepOutcome) (st : State) (d : Dev W) :
  Z.of_nat k < max_steps ->
  loop env mission (Py.range (Z.of_nat k)) (initial w) = (Exhausted, os, st) ->
  think env mission st = (NoPerception, d) ->
  exists final,
    run env mission max_steps w = ((os ++ [PerceptionFailed])%list, final) /\
    action_history final = action_history st /\
    screen_history final = screen_history st /\
    run_log final = run_log st /\
    length (run_log final) = (k - count oracle_failure os)%nat /\
    calls (dev final) =
      (calls (dev st) ++ [EvScreenshot; EvUiDump] ++
         match run_log st with
         | [] => []
         | _ :: _ => [EvReport mission (run_log st) (final_status final)]
         end)%list.
Proof.
  intros Hk Hl Ht.
  assert (Hb : body env mission (Z.of_nat k) st = (PerceptionFailed, with_dev st d))
    by (unfold body; rewrite Ht; reflexivity).
  destruct (loop_prefix_log env _ _ _ _ _ Hl) as [Hn Hlen].
  unfold run. rewrite (loop_prefix_stop env _ _ _ _ _ _ _ _ Hk Hl Hb eq_refl).
  apply think_calls in Ht. unfold finish. cbn [run_log with_dev].
  destruct (run_log st) as [|e l] eqn:Hr.
  - eexists. split; [reflexivity|]. cbn. rewrite Hr. repeat (split; [auto|]).
    rewrite Ht. reflexivity.
  - eexists. split; [reflexivity|]. cbn. rewrite Hr. repeat (split; [auto|]).
    rewrite Ht, <- app_assoc. reflexivity.
Qed.

Lemma count_recorded os :
  forallb is_recorded os = true ->
  forallb continues os = true /\ count appends os = length os.
Proof.
  induction os as [|o os IH]; [auto|].
  cbn [forallb]. intros H. apply andb_true_iff in H as [Ho H].
  destruct (IH H) as [I1 I2]. destruct o; try discriminate. simpl. rewrite I1, I2. auto.
Qed.

(** C6: a run makes at most [max_steps] passes through the loop body, one
    screenshot request each, whatever their outcomes; when every pass made
    goes on to the next (no perception failure, no completion, no exception),
    all [max_steps] passes are made, the final status is
    "Failed (Max steps reached)" and the run log has one record for every pass
    that was not an Oracle failure; when every pass records a step, the run
    log has [max_steps] records. *)
Theorem loop_is_bounded (mission : string) (max_steps : Z) (w : W) :
  (length (fst (run env mission max_steps w)) <= Z.to_nat max_steps)%nat /\
  count is_screenshot (calls (dev (snd (run env mission max_steps w)))) =
    length (fst (run env mission max_steps w)) /\
  (forallb continues (fst (run env mission max_steps w)) = true ->
     length (fst (run env mission max_steps w)) = Z.to_nat max_steps /\
     final_status (snd (run env mission max_steps w)) = "Failed (Max steps reached)" /\
     length (run_log (snd (run env mission max_steps w))) =
       (Z.to_nat max_steps - count oracle_failure (fst (run env mission max_steps w)))%nat) /\
  (forallb is_recorded (fst (run env mission max_steps w)) = true ->
     length (run_log (snd (run env mission max_steps w))) = Z.to_nat max_steps).
Proof.
  unfold run.
  destruct (loop env mission (Py.range max_steps) (initial w)) as [[exit os] st] eqn:Hl.
  destruct (loop_inv env _ _ _ _ _ _ Hl) as (Hlen & Hlog & Hshot & Hex & Hcont).
  rewrite range_length in *. cbn [fst snd initial run_log dev calls length count] in *.
  assert (Hfin : forall st' : State (W:=W),
             count is_screenshot (calls (dev (finish mission st'))) =
               count is_screenshot (calls (dev st')) /\
             run_log (finish mission st') = run_log st' /\
             final_status (finish mission st') = final_status st').
  { intros st'. unfold finish. destruct (run_log st') eqn:E; [auto|].
    cbn. rewrite count_app. simpl. repeat split; auto; lia. }
  split; [exact Hlen|]. split.
  - destruct exit; rewrite (proj1 (Hfin _)); cbn; lia.
  - split.
    + intros Hc. specialize (Hcont Hc). subst exit. destruct (Hex eq_refl) as [_ Hn].
      destruct (Hfin (with_status st "Failed (Max steps reached)")) as (_ & -> & ->).
      pose proof (count_continues os Hc). cbn. repeat split; lia.
    + intros Hr. destruct (count_recorded os Hr) as [Hc Ha].
      specialize (Hcont Hc). subst exit. destruct (Hex eq_refl) as [_ Hn].
      destruct (Hfin (with_status st "Failed (Max steps reached)")) as (_ & -> & _).
      cbn. lia.
Qed.

(** The delay, by outcome: one [time.sleep(2)] after a recorded step and
    after an unavailable reply, none in the other cases. *)
Lemma delay_by_outcome mission step (st : State) :
  count is_sleep (calls (dev (snd (body env mission step st)))) =
    (count is_sleep (calls (dev st)) +
       match fst (body env mission step st) with
       | Recorded | OracleUnavailable => 1
       | _ => 0
       end)%nat.
Proof.
  assert (Hso : forall d d' : Dev W, shell_only d d' ->
                  count is_sleep (calls d') = count is_sleep (calls d)).
  { intros d d' (evs & -> & Hf). rewrite count_app.
    assert (count is_sleep evs = 0%nat) as ->; [|lia].
    induction evs as [|ev evs IH]; [reflexivity|].
    simpl in Hf. apply andb_true_iff in Hf as [He Hf].
    destruct ev; try discriminate. simpl. auto. }
  assert (Hth : forall t d, think env mission st = (t, d) ->
                  count is_sleep (calls d) = count is_sleep (calls (dev st))).
  { intros t d H. apply think_calls in H.
    destruct t as [| | |p x n a];
      [|destruct H as (p & x & H)|destruct H as (p & x & H)|destruct H as [_ H]];
      rewrite H, count_app; simpl; lia. }
  destruct (body env mission step st) as [o st'] eqn:Hb. cbn [fst snd].
  apply body_inv in Hb. destruct o.
  - destruct Hb as (d & Ht & ->). rewrite <- (Hth _ _ Ht). cbn. lia.
  - destruct Hb as (d & Ht & ->). rewrite <- (Hth _ _ Ht). cbn. rewrite count_app. simpl. lia.
  - destruct Hb as (d & Ht & ->). rewrite <- (Hth _ _ Ht). cbn. lia.
  - destruct Hb as (p & x & n & data & d & outcome & d' & Ht & Hs & _ & ->).
    rewrite <- (Hth _ _ Ht), <- (Hso _ _ Hs). cbn. rewrite count_app. simpl. lia.
  - destruct Hb as (p & x & n & data & d & Ht & _ & ->). rewrite <- (Hth _ _ Ht). cbn. lia.
  - destruct Hb as (p & x & n & a & d & d' & Ht & Hs & ->).
    rewrite <- (Hth _ _ Ht), <- (Hso _ _ Hs). cbn. lia.
Qed.

(** C8: two descriptions with the same skeleton, that is, equal but for the
    digits of the numbers in them (the coordinates of bounds attributes and
    any other number), have the same normalised text; [normalize] is a
    function of the description alone. *)
Theorem normalize_coordinate_invariant (r1 r2 : string) :
  skeleton r1 = skeleton r2 -> normalize r1 = normalize r2.
Proof. intros H. apply (normalize_skeleton (S (String.length r1))); [lia | exact H]. Qed.

End Claims.

Lemma perform_tap_midpoint_witness :
  parse_coords (VStr "[100,200][301,401]") = Ok [100; 200; 301; 401] /\
  calls (snd (perform_tap Demo.env (VStr "[100,200][301,401]") Demo.screen
                (Demo.device (Demo.mute [] [] [])))) = [EvShell "input tap 200 300"] /\
  (forall x1 y1 x2 y2, parse_coords (VStr "[10,20][30]") <> Ok [x1; y1; x2; y2]) /\
  snd (perform_tap Demo.env (VStr "[10,20][30]") Demo.screen
         (Demo.device (Demo.mute [] [] []))) = Demo.device (Demo.mute [] [] []).
Proof.
  destruct (perform_tap_midpoint Demo.env Demo.screen (Demo.device (Demo.mute [] [] [])))
    as (Hmid & _ & _ & Hfail).
  split; [reflexivity|]. split; [apply (Hmid _ 100 200 301 401); reflexivity|].
  split; [intros x1 y1 x2 y2; vm_compute; discriminate|].
  apply Hfail. intros x1 y1 x2 y2. vm_compute. discriminate.
Defined.

(** C2 fails as stated: scrolling "left" on a device of 1080 by 1920 returns
    the unsupported-direction outcome after a device call, and on a device
    that does not tell its size it returns another outcome. *)
Lemma perform_scroll_left_calls_device :
  perform_scroll Demo.env (VStr "left") (Demo.device (Demo.phone [] [] [])) =
    (Ok "Scroll direction 'left' not supported.",
     {| world := Demo.phone [] [] []; calls := [EvShell "wm size"] |}) /\
  perform_scroll Demo.env (VStr "left") (Demo.device (Demo.mute [] [] [])) =
    (Ok "Failed to get screen size for scrolling.",
     {| world := Demo.mute [] [] []; calls := [EvShell "wm size"] |}) /\
  ~ (calls (snd (perform_scroll Demo.env (VStr "left") (Demo.device (Demo.phone [] [] []))))
     = calls (Demo.device (Demo.phone [] [] []))).
Proof. split; [reflexivity|]. split; [reflexivity|]. vm_compute. discriminate. Qed.

Lemma perform_scroll_unsupported_witness :
  eq_str (VStr "left") "down" = false /\ eq_str (VStr "left") "up" = false /\
  calls (snd (perform_scroll Demo.env (VStr "left") (Demo.device (Demo.phone [] [] [])))) =
    [EvShell "wm size"] /\
  perform_scroll Demo.env (VStr "left") (Demo.device (Demo.phone [] [] [])) =
    (Ok "Scroll direction 'left' not supported.",
     {| world := Demo.phone [] [] []; calls := [EvShell "wm size"] |}).
Proof.
  destruct (perform_scroll_unsupported Demo.env (VStr "left")
              (Demo.device (Demo.phone [] [] [])) eq_refl eq_refl) as (Hc & Hs & _).
  split; [reflexivity|]. split; [reflexivity|]. split; [exact Hc|].
  apply (Hs 1080 1920); [reflexivity | lia | lia].
Defined.

(** C10 fails as stated: on a device that does not tell its size, a SCROLL
    action without a direction returns a failure outcome and no swipe is
    made. *)
Lemma scroll_without_direction_can_fail :
  dispatch Demo.env (VStr "IN_PROGRESS") (VStr "SCROLL") [("type", VStr "SCROLL")]
           Demo.screen (Demo.device (Demo.mute [] [] [])) =
    (Ok "Failed to get screen size for scrolling.",
     {| world := Demo.mute [] [] []; calls := [EvShell "wm size"] |}).
Proof. reflexivity. Qed.

Lemma scroll_defaults_to_down_witness :
  assoc [("type", VStr "SCROLL")] "direction" = None /\
  calls (snd (dispatch Demo.env (VStr "IN_PROGRESS") (VStr "SCROLL") [("type", VStr "SCROLL")]
                       Demo.screen (Demo.device (Demo.phone [] [] [])))) =
    [EvShell "wm size"; EvShell "input swipe 540 1536 540 384 500"] /\
  fst (dispatch Demo.env (VStr "IN_PROGRESS") (VStr "SCROLL") [("type", VStr "SCROLL")]
                Demo.screen (Demo.device (Demo.phone [] [] []))) = Ok "Scrolled down" /\
  dispatch Demo.env (VStr "IN_PROGRESS") (VStr "SCROLL") [("type", VStr "SCROLL")]
           Demo.screen (Demo.device (Demo.mute [] [] [])) =
    (Ok "Failed to get screen size for scrolling.",
     {| world := Demo.mute [] [] []; calls := [EvShell "wm size"] |}).
Proof.
  destruct (scroll_defaults_to_down Demo.env [("type", VStr "SCROLL")] Demo.screen
              (Demo.device (Demo.phone [] [] [])) eq_refl) as (_ & _ & _ & Hs).
  destruct (Hs 1080 1920 {| world := Demo.phone [] [] []; calls := [EvShell "wm size"] |}
               1536 384) as [Hc Ho];
    [reflexivity | lia | lia | vm_compute; reflexivity | vm_compute; reflexivity |].
  destruct (scroll_defaults_to_down Demo.env [("type", VStr "SCROLL")] Demo.screen
              (Demo.device (Demo.mute [] [] [])) eq_refl) as (_ & Hn & _).
  destruct (Hn {| world := Demo.mute [] [] []; calls := [EvShell "wm size"] |} eq_refl)
    as [Hf _].
  split; [reflexivity|]. split; [exact Hc|].
  split; [apply (Ho "" (Demo.phone [] [] [])); reflexivity | exact Hf].
Defined.

Lemma normalize_coordinate_invariant_witness :
  skeleton Demo.screen = skeleton Demo.screen' /\ normalize Demo.screen = normalize Demo.screen'.
Proof.
  split; [vm_compute; reflexivity|].
  apply normalize_coordinate_invariant. vm_compute. reflexivity.
Defined.

(** C3 at the failing input: a budget of two steps, a first reply that is not
    JSON and a second reply that is missing.  The second pass starts right
    after the [analyze_screen] call of the first, without a sleep; the sleep
    comes only after the missing reply. *)
Theorem malformed_reply_skips_delay :
  run Demo.env "m" 2
      (Demo.phone [Demo.shot; Demo.shot] [Some Demo.screen; Some Demo.screen]
                  [Some "not json"; None]) =
    ([OracleMalformed; OracleUnavailable],
     {| dev := {| world := Demo.phone [] [] [];
                  calls := [EvScreenshot; EvUiDump;
                            EvAnalyze "screenshots/screenshot_1.png" "m" [] Demo.screen [];
                            EvScreenshot; EvUiDump;
                            EvAnalyze "screenshots/screenshot_1.png" "m" [] Demo.screen [];
                            EvSleep 2] |};
        action_history := [];
        screen_history := ∅;
        run_log := [];
        final_status := "Failed (Max steps reached)" |}).
Proof. vm_compute. reflexivity. Qed.

(** C4 fails as stated: the reply [[1, 2]] is JSON but not of the schema;
    the first pass raises on it and the run ends there, with fourteen steps
    of the budget and a second reply left, so the step counter does not
    advance. *)
Lemma schema_failure_ends_run :
  run Bench.env "m" 15
      (Bench.rig Bench.online [Demo.shot; Demo.shot] [Some Demo.screen; Some Demo.screen]
                 [Some Bench.reply_list; Some Demo.reply_complete]) =
    ([Faulted (AttributeError "list" "get")],
     {| dev := {| world := Bench.rig Bench.online [Demo.shot] [Some Demo.screen]
                                     [Some Demo.reply_complete];
                  calls := [EvScreenshot; EvUiDump;
                            EvAnalyze "screenshots/screenshot_1.png" "m" [] Demo.screen []] |};
        action_history := [];
        screen_history := ∅;
        run_log := [];
        final_status := "Failed (Error: 'list' object has no attribute 'get')" |}).
Proof. vm_compute. reflexivity. Qed.

Lemma oracle_failure_consumes_step_witness :
  fst (think Demo.env "m"
         (initial (Demo.phone [Demo.shot] [Some Demo.screen] [Some "not json"]))) = BadJson /\
  oracle_failure
    (fst (body Demo.env "m" 0
            (initial (Demo.phone [Demo.shot] [Some Demo.screen] [Some "not json"])))) = true /\
  run_log
    (snd (body Demo.env "m" 0
            (initial (Demo.phone [Demo.shot] [Some Demo.screen] [Some "not json"])))) = [].
Proof.
  assert (H : fst (think Demo.env "m"
                (initial (Demo.phone [Demo.shot] [Some Demo.screen] [Some "not json"]))) = BadJson)
    by (vm_compute; reflexivity).
  destruct (oracle_failure_consumes_step Demo.env "m" 0 [1]
              (initial (Demo.phone [Demo.shot] [Some Demo.screen] [Some "not json"]))
              (or_intror H)) as (Ho & _ & _ & Hr & _).
  split; [exact H|]. split; [exact Ho | exact Hr].
Defined.




(** C1 fails as stated: with a missing reply on the first pass and no
    screenshot on the second of fifteen, the run log is empty, not of length
    one (and the status left at the end is "Unknown"). *)
Lemma perception_failure_after_oracle_failure :
  fst (run Demo.env "m" 15
         (Demo.phone [Demo.shot; None] [Some Demo.screen; Some Demo.screen] [None]))
    = [OracleUnavailable; PerceptionFailed] /\
  run_log
    (snd (run Demo.env "m" 15
            (Demo.phone [Demo.shot; None] [Some Demo.screen; Some Demo.screen] [None]))) = [] /\
  final_status
    (snd (run Demo.env "m" 15
            (Demo.phone [Demo.shot; None] [Some Demo.screen; Some Demo.screen] [None])))
    = "Unknown".
Proof. vm_compute. auto. Qed.

Lemma perception_failure_ends_run_witness :
  exists final,
    run Demo.env "m" 15
        (Demo.phone [Demo.shot; None] [Some Demo.screen; Some Demo.screen]
                    [Some Demo.reply_paused])
      = ([Recorded; PerceptionFailed], final) /\
    length (run_log final) = 1%nat.
Proof.
  destruct (perception_failure_ends_run Demo.env "m" 15
              (Demo.phone [Demo.shot; None] [Some Demo.screen; Some Demo.screen]
                          [Some Demo.reply_paused])
              1 [Recorded]
              (snd (loop Demo.env "m" (Py.range 1)
                      (initial (Demo.phone [Demo.shot; None]
                                  [Some Demo.screen; Some Demo.screen]
                                  [Some Demo.reply_paused]))))
              (snd (think Demo.env "m"
                 (snd (loop Demo.env "m" (Py.range 1)
                      (initial (Demo.phone [Demo.shot; None]
                                  [Some Demo.screen; Some Demo.screen]
                                  [Some Demo.reply_paused])))))))
    as (final & Hr & _ & _ & _ & Hn & _);
    [lia | vm_compute; reflexivity | vm_compute; reflexivity |].
  exists final. split; [exact Hr | exact Hn].
Defined.

Lemma loop_is_bounded_witness :
  forallb is_recorded
    (fst (run Demo.env "m" 2
            (Demo.phone [Demo.shot; Demo.shot] [Some Demo.screen; Some Demo.screen']
                        [Some Demo.reply_scroll; Some Demo.reply_tap]))) = true /\
  final_status
    (snd (run Demo.env "m" 2
            (Demo.phone [Demo.shot; Demo.shot] [Some Demo.screen; Some Demo.screen']
                        [Some Demo.reply_scroll; Some Demo.reply_tap])))
    = "Failed (Max steps reached)" /\
  length (run_log
    (snd (run Demo.env "m" 2
            (Demo.phone [Demo.shot; Demo.shot] [Some Demo.screen; Some Demo.screen']
                        [Some Demo.reply_scroll; Some Demo.reply_tap])))) = 2%nat.
Proof.
  destruct (loop_is_bounded Demo.env "m" 2
              (Demo.phone [Demo.shot; Demo.shot] [Some Demo.screen; Some Demo.screen']
                          [Some Demo.reply_scroll; Some Demo.reply_tap]))
    as (_ & _ & Hc & Hr).
  split; [vm_compute; reflexivity|]. split.
  - apply Hc. vm_compute. reflexivity.
  - apply Hr. vm_compute. reflexivity.
Defined.

(** ** Further properties of the run *)

Ltac body_cases Hb :=
  apply body_inv in Hb;
  match type of Hb with match ?o with _ => _ end => destruct o end;
  [ destruct Hb as (d & Ht & ->)
  | destruct Hb as (d & Ht & ->)
  | destruct Hb as (d & Ht & ->)
  | destruct Hb as (p & x & n & data & d & outcome & d' & Ht & Hs & Hc & ->)
  | destruct Hb as (p & x & n & data & d & Ht & Hc & ->)
  | destruct Hb as (p & x & n & a & d & d' & Ht & Hs & ->) ].

Section Run.
Context {W : Type} (env : Collaborators W).

Lemma loop_rel (R : State (W:=W) -> State (W:=W) -> Prop) mission :
  (forall st, R st st) ->
  (forall a b c, R a b -> R b c -> R a c) ->
  (forall step st, R st (snd (body env mission step st))) ->
  forall steps st, R st (snd (loop env mission steps st)).
Proof.
  intros Hrefl Htrans Hbody. induction steps as [|step rest IH]; intros st.
  - apply Hrefl.
  - specialize (Hbody step st).
    destruct (body env mission step st) as [o st'] eqn:Hb. cbn [snd] in Hbody.
    destruct (continues o) eqn:Hc.
    + rewrite (loop_cons_continue env _ _ _ _ _ _ Hb Hc).
      specialize (IH st'). destruct (loop env mission rest st') as [[exit os] st''].
      cbn [snd] in *. eapply Htrans; eassumption.
    + rewrite (loop_cons_stop env _ _ _ _ _ _ Hb Hc). exact Hbody.
Qed.

Lemma loop_preserves (P : State (W:=W) -> Prop) mission :
  (forall step st, P st -> P (snd (body env mission step st))) ->
  forall steps st, P st -> P (snd (loop env mission steps st)).
Proof.
  intros Hbody steps st HP.
  apply (loop_rel (fun a b => P a -> P b) mission); auto.
Qed.

Lemma record_screen_history (st : State (W:=W)) step p n data outcome d fp :
  default [] (screen_history (record st step p n data outcome d) !! fp) =
    if decide (n = fp) then (default [] (screen_history st !! fp) ++ [outcome])%list
    else default [] (screen_history st !! fp).
Proof.
  cbn [record screen_history]. destruct (decide (n = fp)) as [->|Hne].
  - rewrite lookup_insert_eq. reflexivity.
  - rewrite lookup_insert_ne by assumption. reflexivity.
Qed.

(** The histories and the run log only grow: what a state holds is a prefix
    of what any later state of the loop holds, for the action history, for the
    run log, and for the list of every screen in the screen history. *)
Theorem histories_only_grow (mission : string) (steps : list Z) (st : State) (fp : string) :
  action_history st `prefix_of` action_history (snd (loop env mission steps st)) /\
  run_log st `prefix_of` run_log (snd (loop env mission steps st)) /\
  default [] (screen_history st !! fp)
    `prefix_of` default [] (screen_history (snd (loop env mission steps st)) !! fp).
Proof.
  apply (loop_rel
           (fun a b => action_history a `prefix_of` action_history b /\
                       run_log a `prefix_of` run_log b /\
                       default [] (screen_history a !! fp)
                         `prefix_of` default [] (screen_history b !! fp)) mission).
  - intros a. repeat split; reflexivity.
  - intros a b c (A1 & A2 & A3) (B1 & B2 & B3).
    repeat split; etrans; eassumption.
  - clear st steps. intros step st.
    destruct (body env mission step st) as [o st'] eqn:Hb. cbn [snd].
    assert (Hrec : forall d0 p n data outcome,
               action_history st `prefix_of`
                 action_history (record st step p n data outcome d0) /\
               run_log st `prefix_of` run_log (record st step p n data outcome d0) /\
               default [] (screen_history st !! fp) `prefix_of`
                 default [] (screen_history (record st step p n data outcome d0) !! fp)).
    { intros d0 p n data outcome. rewrite record_screen_history.
      split; [apply prefix_app_r; reflexivity|].
      split; [apply prefix_app_r; reflexivity|].
      destruct (decide (n = fp)); [apply prefix_app_r|]; reflexivity. }
    body_cases Hb; try (repeat split; reflexivity); apply Hrec.
Qed.

Lemma coherent_initial (w : W) : coherent (initial w).
Proof.
  split; [reflexivity|]. intros fp. cbn. rewrite lookup_empty. constructor.
Qed.

Lemma coherent_record (st : State (W:=W)) step p n data outcome d :
  coherent st -> coherent (record st step p n data outcome d).
Proof.
  intros [Ha Hs]. split.
  - cbn. rewrite map_app, Ha. reflexivity.
  - intros fp. rewrite record_screen_history. cbn [record action_history].
    destruct (decide (n = fp)).
    + apply sublist_app; [apply Hs | reflexivity].
    + apply sublist_inserts_r. apply Hs.
Qed.

Lemma coherent_body mission step (st : State) :
  coherent st -> coherent (snd (body env mission step st)).
Proof.
  intros H. destruct (body env mission step st) as [o st'] eqn:Hb. cbn [snd].
  body_cases Hb; try exact H.
  - apply (coherent_record st step p n data outcome d') in H. exact H.
  - apply (coherent_record st step p n data "No action taken." d) in H. exact H.
Qed.

Lemma coherent_finish mission (st : State (W:=W)) : coherent st -> coherent (finish mission st).
Proof. unfold finish. destruct (run_log st) eqn:E; intros H; exact H. Qed.

Lemma coherent_run mission max_steps (w : W) : coherent (snd (run env mission max_steps w)).
Proof.
  unfold run.
  pose proof (loop_preserves coherent mission (coherent_body mission)
                (Py.range max_steps) (initial w) (coherent_initial w)) as H.
  destruct (loop env mission (Py.range max_steps) (initial w)) as [[exit os] st].
  cbn [snd] in *. apply coherent_finish. destruct exit; exact H.
Qed.

(** At the end of every run the action history is the list of the actions
    of the run log, record by record. *)
Theorem action_history_mirrors_run_log (mission : string) (max_steps : Z) (w : W) :
  action_history (snd (run env mission max_steps w)) =
    map action (run_log (snd (run env mission max_steps w))).
Proof. apply coherent_run. Qed.

(** At the end of every run the outcomes kept for a screen are outcomes of
    the action history, in the order they have there. *)
Theorem screen_history_within_action_history (mission : string) (max_steps : Z) (w : W)
    (fp : string) :
  sublist (default [] (screen_history (snd (run env mission max_steps w)) !! fp))
          (action_history (snd (run env mission max_steps w))).
Proof. apply coherent_run. Qed.

Lemma body_calls (mission : string) (step : Z) (st : State) :
  exists p x shells,
    forallb is_shell shells = true /\
    calls (dev (snd (body env mission step st))) =
      (calls (dev st) ++ [EvScreenshot; EvUiDump]
         ++ (if perceived (fst (body env mission step st))
             then [analyze_event mission st p x] else [])
         ++ shells
         ++ (if delays (fst (body env mission step st)) then [EvSleep 2] else []))%list.
Proof.
  destruct (body env mission step st) as [o st'] eqn:Hb. cbn [fst snd].
  body_cases Hb; apply think_calls in Ht; cbn [perceived delays with_dev dev sleep emit calls record with_status].
  - exists "", "", []. split; [reflexivity|]. rewrite Ht. reflexivity.
  - destruct Ht as (p & x & Ht). exists p, x, []. split; [reflexivity|].
    rewrite Ht, <- ?app_assoc. reflexivity.
  - destruct Ht as (p & x & Ht). exists p, x, []. split; [reflexivity|].
    rewrite Ht, <- ?app_assoc. reflexivity.
  - destruct Ht as [_ Ht]. destruct Hs as (shells & Hs & Hf). exists p, x, shells.
    split; [exact Hf|]. rewrite Hs, Ht, <- ?app_assoc. reflexivity.
  - destruct Ht as [_ Ht]. exists p, x, []. split; [reflexivity|].
    rewrite Ht, <- ?app_assoc. reflexivity.
  - destruct Ht as [_ Ht]. destruct Hs as (shells & Hs & Hf). exists p, x, shells.
    split; [exact Hf|]. rewrite Hs, Ht, <- ?app_assoc, app_nil_r. reflexivity.
Qed.

(** The calls of one pass, in order: the screenshot and the description;
    then, unless perception failed, one [analyze_screen] call and the shell
    commands of the dispatcher; then the sleep, after a recorded step and
    after a missing reply. *)
Theorem calls_of_a_pass (mission : string) (step : Z) (st : State) :
  exists p x shells,
    forallb is_shell shells = true /\
    calls (dev (snd (body env mission step st))) =
      (calls (dev st) ++ [EvScreenshot; EvUiDump]
         ++ (if perceived (fst (body env mission step st))
             then [analyze_event mission st p x] else [])
         ++ shells
         ++ (if delays (fst (body env mission step st)) then [EvSleep 2] else []))%list.
Proof. apply body_calls. Qed.

Lemma count_none {A} (p q : A -> bool) l :
  forallb q l = true -> (forall a, q a = true -> p a = false) -> count p l = 0%nat.
Proof.
  intros Hf Hq. induction l as [|a l IH]; [reflexivity|].
  cbn [forallb] in Hf. apply andb_true_iff in Hf as [Ha Hf].
  cbn [count]. rewrite (Hq a Ha), IH by assumption. reflexivity.
Qed.

Lemma count_true {A} (l : list A) : count (fun _ => true) l = length l.
Proof. induction l as [|a l IH]; [reflexivity|]. cbn [count length]. rewrite IH. reflexivity. Qed.

Lemma count_false {A} (l : list A) : count (fun _ => false) l = 0%nat.
Proof. induction l as [|a l IH]; [reflexivity|]. cbn [count]. rewrite IH. reflexivity. Qed.

Lemma body_count (p : Event -> bool) (q : StepOutcome -> bool) mission step (st : State) :
  (forall ev, is_shell ev = true -> p ev = false) ->
  (forall o a b c h l,
      ((if p EvScreenshot then 1 else 0) + (if p EvUiDump then 1 else 0)
       + (if perceived o then (if p (EvAnalyze a b c h l) then 1 else 0) else 0)
       + (if delays o then (if p (EvSleep 2) then 1 else 0) else 0))%nat
      = (if q o then 1 else 0)%nat) ->
  count p (calls (dev (snd (body env mission step st)))) =
    (count p (calls (dev st)) + (if q (fst (body env mission step st)) then 1 else 0))%nat.
Proof.
  intros Hshell Hq.
  destruct (body_calls mission step st) as (a & x & shells & Hf & ->).
  rewrite !count_app, (count_none p is_shell shells Hf Hshell).
  rewrite <- (Hq (fst (body env mission step st)) a mission (action_history st) x
                 (default [] (screen_history st !! normalize x))).
  unfold analyze_event.
  destruct (perceived _), (delays _); cbn [count]; lia.
Qed.

Lemma loop_count (p : Event -> bool) (q : StepOutcome -> bool) mission :
  (forall step st,
      count p (calls (dev (snd (body env mission step st)))) =
        (count p (calls (dev st)) + (if q (fst (body env mission step st)) then 1 else 0))%nat) ->
  forall steps (st : State),
    count p (calls (dev (snd (loop env mission steps st)))) =
      (count p (calls (dev st)) + count q (snd (fst (loop env mission steps st))))%nat.
Proof.
  intros Hbody. induction steps as [|step rest IH]; intros st.
  - cbn. lia.
  - specialize (Hbody step st).
    destruct (body env mission step st) as [o st'] eqn:Hb. cbn [fst snd] in Hbody.
    destruct (continues o) eqn:Hc.
    + rewrite (loop_cons_continue env _ _ _ _ _ _ Hb Hc).
      specialize (IH st'). destruct (loop env mission rest st') as [[exit os] st''].
      cbn [fst snd count] in *. lia.
    + rewrite (loop_cons_stop env _ _ _ _ _ _ Hb Hc). cbn [fst snd count]. lia.
Qed.

Lemma finish_calls mission (st : State (W:=W)) :
  calls (dev (finish mission st)) =
    (calls (dev st) ++
       match run_log st with
       | [] => []
       | _ :: _ => [EvReport mission (run_log st) (final_status st)]
       end)%list /\
  run_log (finish mission st) = run_log st /\
  final_status (finish mission st) = final_status st /\
  action_history (finish mission st) = action_history st /\
  screen_history (finish mission st) = screen_history st.
Proof.
  unfold finish. destruct (run_log st) eqn:E; cbn; rewrite ?app_nil_r, ?E; auto.
Qed.

(** The state the loop leaves and the state [run] returns differ by the
    status and by the report. *)
Lemma run_unfold mission max_steps (w : W) :
  exists exit st,
    loop env mission (Py.range max_steps) (initial w)
      = (exit, fst (run env mission max_steps w), st) /\
    run_log (snd (run env mission max_steps w)) = run_log st /\
    calls (dev (snd (run env mission max_steps w))) =
      (calls (dev st) ++
         match run_log st with
         | [] => []
         | _ :: _ => [EvReport mission (run_log st)
                               (final_status (snd (run env mission max_steps w)))]
         end)%list.
Proof.
  unfold run.
  destruct (loop env mission (Py.range max_steps) (initial w)) as [[exit os] st].
  exists exit, st. cbn [fst snd]. split; [reflexivity|].
  match goal with |- context [finish mission ?s] =>
    destruct (finish_calls mission s) as (Hc & Hr & Hf & _) end.
  rewrite Hc, Hr, Hf. destruct exit; auto.
Qed.

(** Over a whole run: one description dump for every pass, one
    [analyze_screen] call for every pass in which perception succeeded, and
    one sleep for every recorded step and every missing reply. *)
Theorem calls_of_a_run (mission : string) (max_steps : Z) (w : W) :
  count is_uidump (calls (dev (snd (run env mission max_steps w)))) =
    length (fst (run env mission max_steps w)) /\
  count is_analyze (calls (dev (snd (run env mission max_steps w)))) =
    count perceived (fst (run env mission max_steps w)) /\
  count is_sleep (calls (dev (snd (run env mission max_steps w)))) =
    count delays (fst (run env mission max_steps w)).
Proof.
  destruct (run_unfold mission max_steps w) as (exit & st & Hl & _ & ->).
  assert (Hrep : forall p : Event -> bool,
             (forall m l s, p (EvReport m l s) = false) ->
             count p (match run_log st with
                      | [] => []
                      | _ :: _ => [EvReport mission (run_log st)
                                     (final_status (snd (run env mission max_steps w)))]
                      end) = 0%nat).
  { intros p Hp. destruct (run_log st); cbn; rewrite ?Hp; reflexivity. }
  rewrite !count_app, !Hrep by reflexivity.
  assert (Hb : forall (p : Event -> bool) (q : StepOutcome -> bool),
             (forall ev, is_shell ev = true -> p ev = false) ->
             (forall o a b c h l,
                 ((if p EvScreenshot then 1 else 0) + (if p EvUiDump then 1 else 0)
                  + (if perceived o then (if p (EvAnalyze a b c h l) then 1 else 0) else 0)
                  + (if delays o then (if p (EvSleep 2) then 1 else 0) else 0))%nat
                 = (if q o then 1 else 0)%nat) ->
             count p (calls (dev st)) = count q (fst (run env mission max_steps w))).
  { intros p q Hs Hq.
    pose proof (loop_count p q mission
                  (fun (i : Z) (st0 : State (W:=W)) => body_count p q mission i st0 Hs Hq)
                  (Py.range max_steps) (initial w)) as H.
    rewrite Hl in H. exact H. }
  rewrite (Hb is_uidump (fun _ => true)), (Hb is_analyze perceived), (Hb is_sleep delays).
  - rewrite count_true. repeat split; lia.
  - intros [] ?; try discriminate; reflexivity.
  - intros o a b c h l. destruct o; reflexivity.
  - intros [] ?; try discriminate; reflexivity.
  - intros o a b c h l. destruct (perceived o), (delays o); reflexivity.
  - intros [] ?; try discriminate; reflexivity.
  - intros o a b c h l. destruct (perceived o), (delays o); reflexivity.
Qed.

(** A run makes at most one report: none when the run log is empty;
    otherwise the report is the last call, and it carries the run log and the
    status the run ends with. *)
Theorem report_is_last (mission : string) (max_steps : Z) (w : W) :
  match run_log (snd (run env mission max_steps w)) with
  | [] => count is_report (calls (dev (snd (run env mission max_steps w)))) = 0%nat
  | _ :: _ =>
      exists before,
        count is_report before = 0%nat /\
        calls (dev (snd (run env mission max_steps w))) =
          (before ++ [EvReport mission (run_log (snd (run env mission max_steps w)))
                               (final_status (snd (run env mission max_steps w)))])%list
  end.
Proof.
  destruct (run_unfold mission max_steps w) as (exit & st & Hl & -> & ->).
  pose proof (loop_count is_report (fun _ => false) mission
                (fun (i : Z) (st0 : State (W:=W)) => body_count is_report (fun _ => false) mission i st0
                   ltac:(intros [] ?; try discriminate; reflexivity)
                   ltac:(intros o a b c h l; destruct (perceived o), (delays o); reflexivity))
                (Py.range max_steps) (initial w)) as H.
  rewrite Hl in H. cbn [fst snd initial dev calls count] in H.
  rewrite count_false in H.
  destruct (run_log st).
  - rewrite app_nil_r. exact H.
  - exists (calls (dev st)). split; [exact H | reflexivity].
Qed.

Lemma body_status mission step (st : State) :
  final_status (snd (body env mission step st)) =
    match fst (body env mission step st) with
    | Completed => "Successful"
    | _ => final_status st
    end.
Proof.
  destruct (body env mission step st) as [o st'] eqn:Hb. cbn [fst snd].
  body_cases Hb; reflexivity.
Qed.

Lemma loop_status mission steps : forall (st : State) exit os st',
  loop env mission steps st = (exit, os, st') ->
  final_status st' =
    match last os with
    | Some Completed => "Successful"
    | _ => final_status st
    end /\
  match exit with
  | Exhausted => last os = None \/ exists o, last os = Some o /\ continues o = true
  | Broke => last os = Some Completed \/ last os = Some PerceptionFailed
  | Raised e => last os = Some (Faulted e)
  end.
Proof.
  induction steps as [|step rest IH]; intros st exit os st' H.
  - cbn in H. injection H as <- <- <-. auto.
  - pose proof (body_status mission step st) as Hs.
    destruct (body env mission step st) as [o st1] eqn:Hb. cbn [fst snd] in Hs.
    destruct (continues o) eqn:Hc.
    + rewrite (loop_cons_continue env _ _ _ _ _ _ Hb Hc) in H.
      destruct (loop env mission rest st1) as [[exit' os'] st2] eqn:Hl.
      injection H as <- <- <-. destruct (IH _ _ _ _ Hl) as [I1 I2].
      assert (Hst : final_status st1 = final_status st)
        by (rewrite Hs; destruct o; try discriminate; reflexivity).
      destruct os' as [|o' os'].
      * cbn in Hl. cbn [last]. rewrite I1, Hst. cbn [last].
        split; [destruct o; try discriminate; reflexivity|].
        destruct exit'; cbn [last] in I2.
        -- right. eauto.
        -- destruct I2; discriminate.
        -- discriminate.
      * change (last (o :: o' :: os')) with (last (o' :: os')).
        rewrite I1, Hst. split; [reflexivity | exact I2].
    + rewrite (loop_cons_stop env _ _ _ _ _ _ Hb Hc) in H. injection H as <- <- <-.
      cbn [last]. rewrite Hs. destruct o; try discriminate; auto.
Qed.

(** The status a run ends with is decided by its last pass: "Successful"
    after a pass that completed, "Unknown" after a pass in which perception
    failed, "Failed (Error: ...)" with the text of the exception after a pass
    that raised, and "Failed (Max steps reached)" in every other case, the run
    without any pass included. *)
Theorem final_status_by_last_pass (mission : string) (max_steps : Z) (w : W) :
  final_status (snd (run env mission max_steps w)) =
    status_of env (fst (run env mission max_steps w)).
Proof.
  unfold run.
  destruct (loop env mission (Py.range max_steps) (initial w)) as [[exit os] st] eqn:Hl.
  destruct (loop_status _ _ _ _ _ _ Hl) as [H1 H2]. cbn [fst snd].
  match goal with |- context [finish mission ?s] =>
    destruct (finish_calls mission s) as (_ & _ & -> & _) end.
  unfold status_of. destruct exit; cbn [with_status final_status].
  - destruct H2 as [-> | (o & -> & Hc)]; [reflexivity|].
    destruct o; try discriminate; reflexivity.
  - rewrite H1. destruct H2 as [-> | ->]; reflexivity.
  - rewrite H2. reflexivity.
Qed.

Lemma sublist_map {A B} (f : A -> B) (l1 l2 : list A) :
  sublist l1 l2 -> sublist (map f l1) (map f l2).
Proof. induction 1; cbn; constructor; assumption. Qed.

Lemma body_run_log_steps mission i (st : State) :
  map step (run_log (snd (body env mission i st))) =
    (map step (run_log st) ++ (if appends (fst (body env mission i st)) then [i + 1] else []))%list.
Proof.
  destruct (body env mission i st) as [o st'] eqn:Hb. cbn [fst snd].
  body_cases Hb; cbn; rewrite ?app_nil_r, ?map_app; reflexivity.
Qed.

Lemma loop_steps mission steps : forall st : State,
  exists l, sublist l steps /\
    map step (run_log (snd (loop env mission steps st))) =
      (map step (run_log st) ++ map (fun i => i + 1) l)%list.
Proof.
  induction steps as [|i rest IH]; intros st.
  - exists []. split; [constructor|]. cbn. rewrite app_nil_r. reflexivity.
  - pose proof (body_run_log_steps mission i st) as Hs.
    destruct (body env mission i st) as [o st1] eqn:Hb. cbn [fst snd] in Hs.
    destruct (continues o) eqn:Hc.
    + rewrite (loop_cons_continue env _ _ _ _ _ _ Hb Hc).
      destruct (IH st1) as (l & Hl & Hm).
      destruct (loop env mission rest st1) as [[exit os] st2]. cbn [snd] in *.
      rewrite Hm, Hs. destruct (appends o).
      * exists (i :: l). split; [constructor; exact Hl|].
        rewrite <- app_assoc. reflexivity.
      * exists l. split; [constructor; exact Hl|]. rewrite app_nil_r. reflexivity.
    + rewrite (loop_cons_stop env _ _ _ _ _ _ Hb Hc). cbn [snd]. rewrite Hs.
      destruct (appends o).
      * exists [i]. split; [constructor; apply sublist_nil_l | reflexivity].
      * exists []. split; [apply sublist_nil_l|]. reflexivity.
Qed.

(** The step numbers of the run log are numbers of 1, 2, ..., [max_steps]
    in increasing order, without repetition: a record carries the number of
    the pass that made it, and passes without a record leave gaps. *)
Theorem run_log_steps_increase (mission : string) (max_steps : Z) (w : W) :
  sublist (map step (run_log (snd (run env mission max_steps w))))
          (map (fun i => i + 1) (Py.range max_steps)).
Proof.
  destruct (run_unfold mission max_steps w) as (exit & st & Hl & -> & _).
  destruct (loop_steps mission (Py.range max_steps) (initial w)) as (l & Hs & Hm).
  rewrite Hl in Hm. cbn in Hm. rewrite Hm. apply sublist_map. exact Hs.
Qed.

(** An exception that leaves the loop body ends the run: the status is
    "Failed (Error: ...)" with the text of the exception, and the pass that
    raised leaves both histories and the run log as they were. *)
Theorem exception_ends_run (mission : string) (max_steps : Z) (w : W) (k : nat)
    (os : list StepOutcome) (st : State) (e : exn) :
  Z.of_nat k < max_steps ->
  loop env mission (Py.range (Z.of_nat k)) (initial w) = (Exhausted, os, st) ->
  fst (body env mission (Z.of_nat k) st) = Faulted e ->
  exists final,
    run env mission max_steps w = ((os ++ [Faulted e])%list, final) /\
    final_status final = "Failed (Error: " +:+ exn_text env e +:+ ")" /\
    action_history final = action_history st /\
    screen_history final = screen_history st /\
    run_log final = run_log st.
Proof.
  intros Hk Hl Hf.
  destruct (body env mission (Z.of_nat k) st) as [o st'] eqn:Hb. cbn [fst] in Hf. subst o.
  unfold run. rewrite (loop_prefix_stop env _ _ _ _ _ _ _ _ Hk Hl Hb eq_refl).
  eexists. split; [reflexivity|].
  match goal with |- context [finish mission ?s] =>
    destruct (finish_calls mission s) as (_ & -> & -> & -> & ->) end.
  apply body_inv in Hb. destruct Hb as (p & x & n & a & d & d' & _ & _ & ->).
  cbn. auto.
Qed.

(** Without a budget no pass is made: nothing is called, nothing is
    reported, and the status is "Failed (Max steps reached)". *)
Theorem no_budget_no_pass (mission : string) (max_steps : Z) (w : W) :
  max_steps <= 0 ->
  run env mission max_steps w = ([], with_status (initial w) "Failed (Max steps reached)").
Proof.
  intros H. unfold run, Py.range.
  replace (Z.to_nat max_steps) with 0%nat by lia. reflexivity.
Qed.


End Run.

(** ** The fingerprint, the screen size and the tap point *)

Section Pure.
Context {W : Type} (env : Collaborators W).

Lemma sub_digits_no_digit s : no_digit (Py.sub_digits s) = true.
Proof.
  induction s as [|c s IH]; [reflexivity|]. cbn [Py.sub_digits].
  destruct (Py.is_digit c) eqn:Hc; [exact IH|]. cbn [no_digit]. rewrite Hc, IH. reflexivity.
Qed.

Lemma sub_digits_length s : (String.length (Py.sub_digits s) <= String.length s)%nat.
Proof.
  induction s as [|c s IH]; [reflexivity|]. cbn [Py.sub_digits].
  destruct (Py.is_digit c); cbn [String.length]; lia.
Qed.

Lemma sub_bounds_fuel_length fuel : forall s,
  (String.length (Py.sub_bounds_fuel fuel s) <= String.length s)%nat.
Proof.
  induction fuel as [|fuel IH]; intros s; [cbn; lia|]. cbn [Py.sub_bounds_fuel].
  destruct (Py.match_bounds s) as [rest|] eqn:Hm.
  - apply match_bounds_length in Hm. specialize (IH rest). lia.
  - destruct s as [|c r]; [reflexivity|]. specialize (IH r). cbn [String.length]. lia.
Qed.

Lemma lit_no_digit p : forall s r,
  Py.lit p s = Some r -> no_digit s = true -> no_digit r = true.
Proof.
  induction p as [|a p IH]; intros s r H Hs; cbn [Py.lit] in H.
  - congruence.
  - destruct s as [|c s]; [discriminate|].
    destruct (Py.ascii_eqb a c); [|discriminate].
    cbn [no_digit] in Hs. apply andb_true_iff in Hs as [_ Hs]. eapply IH; eassumption.
Qed.

Lemma digits1_no_digit s : no_digit s = true -> Py.digits1 s = None.
Proof.
  destruct s as [|c s]; [reflexivity|]. cbn [no_digit Py.digits1]. intros H.
  apply andb_true_iff in H as [Hc _]. apply negb_true_iff in Hc. rewrite Hc. reflexivity.
Qed.

Lemma match_bounds_no_digit s : no_digit s = true -> Py.match_bounds s = None.
Proof.
  intros Hs. unfold Py.match_bounds.
  destruct (Py.lit _ s) as [r|] eqn:Hl; [|reflexivity].
  cbn [mbind option_bind]. rewrite (digits1_no_digit r); [reflexivity|].
  eapply lit_no_digit; eassumption.
Qed.

Lemma sub_bounds_fuel_no_digit fuel : forall s,
  no_digit s = true -> (String.length s < fuel)%nat -> Py.sub_bounds_fuel fuel s = s.
Proof.
  induction fuel as [|fuel IH]; intros s Hs Hf; [lia|]. cbn [Py.sub_bounds_fuel].
  rewrite match_bounds_no_digit by assumption.
  destruct s as [|c r]; [reflexivity|].
  cbn [no_digit] in Hs. apply andb_true_iff in Hs as [_ Hs].
  cbn [String.length] in Hf. rewrite IH by (assumption || lia). reflexivity.
Qed.

Lemma sub_digits_no_digit_id s : no_digit s = true -> Py.sub_digits s = s.
Proof.
  induction s as [|c s IH]; [reflexivity|]. cbn [no_digit Py.sub_digits]. intros H.
  apply andb_true_iff in H as [Hc Hs]. apply negb_true_iff in Hc.
  rewrite Hc, IH by assumption. reflexivity.
Qed.

(** The normalised text of a description holds no digit and is not longer
    than the description, and normalising it again changes nothing. *)
Theorem normalize_idempotent (xml_content : string) :
  no_digit (normalize xml_content) = true /\
  (String.length (normalize xml_content) <= String.length xml_content)%nat /\
  normalize (normalize xml_content) = normalize xml_content.
Proof.
  unfold normalize. pose proof (sub_digits_no_digit (Py.sub_bounds xml_content)) as H.
  split; [exact H|]. split.
  - pose proof (sub_digits_length (Py.sub_bounds xml_content)).
    pose proof (sub_bounds_fuel_length (S (String.length xml_content)) xml_content).
    unfold Py.sub_bounds in *. lia.
  - unfold Py.sub_bounds at 1. rewrite sub_bounds_fuel_no_digit by (assumption || lia).
    apply sub_digits_no_digit_id. exact H.
Qed.

Lemma lit_app p : forall r, Py.lit p (p +:+ r) = Some r.
Proof.
  induction p as [|a p IH]; intros r; [reflexivity|].
  change (String a p +:+ r) with (String a (p +:+ r)). cbn [Py.lit].
  unfold Py.ascii_eqb. rewrite Ascii.eqb_refl. apply IH.
Qed.

Lemma digits_app D : forall r,
  all_digits D = true -> Py.digits1 r = None ->
  Py.take_digits (D +:+ r) = D /\ Py.skip_digits (D +:+ r) = r.
Proof.
  induction D as [|c D IH]; intros r HD Hr.
  - change ("" +:+ r) with r. destruct r as [|c r]; [auto|].
    cbn [Py.digits1] in Hr. cbn [Py.take_digits Py.skip_digits].
    destruct (Py.is_digit c); [discriminate | auto].
  - cbn [all_digits] in HD. apply andb_true_iff in HD as [Hc HD].
    change (String c D +:+ r) with (String c (D +:+ r)).
    cbn [Py.take_digits Py.skip_digits]. rewrite Hc.
    destruct (IH r HD Hr) as [-> ->]. auto.
Qed.

Lemma digits1_app D r :
  all_digits D = true -> D <> "" -> Py.digits1 r = None ->
  Py.digits1 (D +:+ r) = Some r.
Proof.
  intros HD Hne Hr. destruct D as [|c D]; [congruence|].
  cbn [all_digits] in HD. apply andb_true_iff in HD as [Hc HD].
  change (String c D +:+ r) with (String c (D +:+ r)). cbn [Py.digits1]. rewrite Hc.
  destruct (digits_app D r HD Hr) as [_ ->]. reflexivity.
Qed.

Lemma str_int_nonneg n : 0 <= n -> Py.str_int n = Py.str_nat n.
Proof. intros H. unfold Py.str_int. apply Z.ltb_ge in H. rewrite H. reflexivity. Qed.

Lemma search_size_physical width height rest :
  0 <= width -> 0 <= height -> Py.digits1 rest = None ->
  Py.search_size
    ("Physical size: " +:+ Py.str_int width +:+ "x" +:+ Py.str_int height +:+ rest)
    = Some (Py.str_int width, Py.str_int height).
Proof.
  intros Hw Hh Hr. rewrite !str_int_nonneg by assumption.
  destruct (str_nat_spec width Hw) as (Dw & _ & Nw).
  destruct (str_nat_spec height Hh) as (Dh & _ & Nh).
  assert (Hm : Py.match_size
                 ("Physical size: " +:+ Py.str_nat width +:+ "x" +:+ Py.str_nat height +:+ rest)
               = Some (Py.str_nat width, Py.str_nat height)).
  { unfold Py.match_size. rewrite lit_app. cbn [mbind option_bind].
    rewrite (digits1_app _ ("x" +:+ Py.str_nat height +:+ rest)) by (auto; reflexivity).
    cbn [mbind option_bind]. rewrite (lit_app "x"). cbn [mbind option_bind].
    rewrite digits1_app by auto. cbn [mbind option_bind].
    destruct (digits_app (Py.str_nat width) ("x" +:+ Py.str_nat height +:+ rest) Dw eq_refl)
      as [-> _].
    destruct (digits_app (Py.str_nat height) rest Dh Hr) as [-> _]. reflexivity. }
  destruct ("Physical size: " +:+ Py.str_nat width +:+ "x" +:+ Py.str_nat height +:+ rest);
    cbn [Py.search_size]; rewrite Hm; reflexivity.
Qed.

(** [get_screen_size] reads the size off the first line of [wm size]: when
    the device answers "Physical size: WxH" followed by anything that does not
    start with a digit, the result is the pair (W, H), after exactly one
    shell call. *)
Theorem get_screen_size_reads_wm_size (d : Dev W) (width height : Z) (rest : string) (w' : W) :
  0 <= width -> 0 <= height -> Py.digits1 rest = None ->
  shell env "wm size" (world d) =
    (Ok ("Physical size: " +:+ Py.str_int width +:+ "x" +:+ Py.str_int height +:+ rest), w') ->
  get_screen_size env d = (Ok (Some (width, height)), emit (EvShell "wm size") w' d).
Proof.
  intros Hw Hh Hr Hs. unfold get_screen_size, device_shell. rewrite Hs.
  rewrite (search_size_physical width height rest Hw Hh Hr), !int_str_int. reflexivity.
Qed.

(** For the literal of a rectangle with [x1 <= x2] and [y1 <= y2] the tap
    point lies within the rectangle. *)
Theorem tap_point_within_bounds (x1 y1 x2 y2 : Z) :
  x1 <= x2 -> y1 <= y2 ->
  exists tap_x tap_y,
    tap_point (VStr (bounds_literal x1 y1 x2 y2)) = Ok (tap_x, tap_y) /\
    x1 <= tap_x <= x2 /\ y1 <= tap_y <= y2.
Proof.
  intros Hx Hy. exists ((x1 + x2) / 2), ((y1 + y2) / 2). split.
  - unfold tap_point. rewrite parse_coords_bounds_literal. reflexivity.
  - pose proof (Z.div_mod (x1 + x2) 2). pose proof (Z.mod_pos_bound (x1 + x2) 2).
    pose proof (Z.div_mod (y1 + y2) 2). pose proof (Z.mod_pos_bound (y1 + y2) 2). lia.
Qed.

(** A TAP action whose bounds are missing, [None], empty or zero is not sent
    to the device: the outcome is "Failed to tap: bounds string was empty.". *)
Theorem tap_without_bounds (fields : list (string * value)) (xml_content : string) (d : Dev W) :
  truthy (get fields "bounds" VNone) = false ->
  dispatch env (VStr "IN_PROGRESS") (VStr "TAP") fields xml_content d =
    (Ok "Failed to tap: bounds string was empty.", d).
Proof. intros H. unfold dispatch, perform_tap. rewrite H. reflexivity. Qed.

Lemma scaling_exact_checked : forallb scaling_exact (Py.range 4097) = true.
Proof. vm_compute. reflexivity. Qed.

Lemma scaling_exact_small height :
  0 <= height <= 4096 ->
  Py.int_mul_float height Py.float_0_8 = Some (4 * height / 5) /\
  Py.int_mul_float height Py.float_0_2 = Some (height / 5).
Proof.
  intros H. pose proof scaling_exact_checked as Hc.
  rewrite forallb_forall in Hc. specialize (Hc height).
  assert (Hin : In height (Py.range 4097)).
  { unfold Py.range. apply in_map_iff. exists (Z.to_nat height).
    split; [lia|]. apply in_seq. lia. }
  specialize (Hc Hin). unfold scaling_exact in Hc.
  destruct (Py.int_mul_float height Py.float_0_8) as [a|]; [|discriminate].
  destruct (Py.int_mul_float height Py.float_0_2) as [b|]; [|discriminate].
  apply andb_true_iff in Hc as [Ha Hb]. apply Z.eqb_eq in Ha, Hb. subst. auto.
Qed.

(** On a screen of up to 4096 pixels in height the float products are
    exact: scrolling down swipes from four fifths of the height to one fifth
    (rounded down), scrolling up swipes the other way, both at half the width
    and in 500 ms, each after the size query and with no other call. *)
Theorem scroll_gestures (d d1 : Dev W) (width height : Z) :
  get_screen_size env d = (Ok (Some (width, height)), d1) ->
  0 < width -> 0 < height <= 4096 ->
  calls (snd (perform_scroll env (VStr "down") d)) =
    (calls d ++ [EvShell "wm size";
                 EvShell (swipe_command (width / 2) (4 * height / 5)
                                        (width / 2) (height / 5) 500)])%list /\
  calls (snd (perform_scroll env (VStr "up") d)) =
    (calls d ++ [EvShell "wm size";
                 EvShell (swipe_command (width / 2) (height / 5)
                                        (width / 2) (4 * height / 5) 500)])%list.
Proof.
  intros Hs Hw Hh.
  destruct (scaling_exact_small height) as [H8 H2]; [lia|].
  pose proof (get_screen_size_calls env d) as Hg. rewrite Hs in Hg. cbn [snd] in Hg.
  rewrite !(perform_scroll_sized env _ _ _ _ _ Hs) by lia.
  change (eq_str (VStr "down") "down") with true.
  change (eq_str (VStr "up") "down") with false.
  change (eq_str (VStr "up") "up") with true. cbn iota.
  destruct (swipe_calls env width height _ _ "Scrolled down" d1 _ _ H8 H2) as [-> _].
  destruct (swipe_calls env width height _ _ "Scrolled up" d1 _ _ H2 H8) as [-> _].
  rewrite Hg, <- !app_assoc. auto.
Qed.

Lemma find_first {A} (f : A -> bool) before x after :
  Forall (fun a => f a = false) before -> f x = true ->
  find f (before ++ x :: after) = Some x.
Proof.
  induction 1 as [|a before Ha _ IH]; intros Hx; cbn [app find].
  - rewrite Hx. reflexivity.
  - rewrite Ha. apply IH. exact Hx.
Qed.

Lemma find_none {A} (f : A -> bool) l : Forall (fun a => f a = false) l -> find f l = None.
Proof.
  induction 1 as [|a l Ha _ IH]; [reflexivity|]. cbn [find]. rewrite Ha. exact IH.
Qed.

(** The outcome of a tap that went through names the element by the first
    node of the description whose bounds attribute is the tapped string: by
    its text if that is not empty, else by its content description if that is
    not empty, else by the bounds; it names the bounds too when no node has
    them or the description cannot be parsed. *)
Theorem tapped_element_is_named (s xml_content : string) (d : Dev W)
    (x1 y1 x2 y2 : Z) (out : string) (w' : W) :
  parse_coords (VStr s) = Ok [x1; y1; x2; y2] ->
  shell env (tap_command ((x1 + x2) / 2) ((y1 + y2) / 2)) (world d) = (Ok out, w') ->
  (forall before node after,
      xml_nodes env xml_content = Some (before ++ node :: after)%list ->
      Forall (fun attrib => assoc attrib "bounds" <> Some s) before ->
      assoc node "bounds" = Some s ->
      fst (perform_tap env (VStr s) xml_content d) =
        "Tapped on " +:+
          match truthy_str (assoc node "text"), truthy_str (assoc node "content-desc") with
          | Some text, _ => "element with text '" +:+ text +:+ "'"
          | None, Some desc => "element with description '" +:+ desc +:+ "'"
          | None, None => "element with bounds " +:+ s
          end) /\
  (match xml_nodes env xml_content with
   | Some nodes => Forall (fun attrib => assoc attrib "bounds" <> Some s) nodes
   | None => True
   end ->
   fst (perform_tap env (VStr s) xml_content d) = "Tapped on element with bounds " +:+ s).
Proof.
  intros Hp Hs.
  assert (Htap : forall dsc, describe_element env (VStr s) xml_content = dsc ->
                   fst (perform_tap env (VStr s) xml_content d) = "Tapped on " +:+ dsc).
  { intros dsc <-. unfold perform_tap.
    rewrite (parse_coords_truthy _ _ Hp), (tap_point_of_coords _ _ _ _ _ Hp).
    cbn [negb]. unfold device_shell. rewrite Hs. reflexivity. }
  assert (Hmiss : forall l, Forall (fun attrib => assoc attrib "bounds" <> Some s) l ->
            Forall (fun attrib => match assoc attrib "bounds" with
                                  | Some b => eq_str (VStr s) b
                                  | None => false
                                  end = false) l).
  { intros l Hl. eapply Forall_impl; [exact Hl|]. intros a Ha. cbn beta in *.
    destruct (assoc a "bounds") as [b|]; [|reflexivity].
    cbn [eq_str]. apply String.eqb_neq. congruence. }
  split.
  - intros before node after Hx Hb Hn. apply Htap. unfold describe_element. rewrite Hx.
    rewrite (find_first _ before node after (Hmiss _ Hb))
      by (rewrite Hn; cbn [eq_str]; apply String.eqb_refl).
    cbn [py_str]. destruct (truthy_str (assoc node "text")); [reflexivity|].
    destruct (truthy_str (assoc node "content-desc")); reflexivity.
  - intros Hx. apply Htap. unfold describe_element.
    destruct (xml_nodes env xml_content) as [nodes|]; [|reflexivity].
    rewrite (find_none _ nodes (Hmiss _ Hx)). reflexivity.
Qed.

End Pure.

(** ** The screen history as the Oracle sees it, the prompt and the report *)

Section Views.
Context {W : Type} (env : Collaborators W).

(** A screen is remembered across its numbers: after a step with outcome
    [outcome] was recorded on the description [x], a pass that perceives a
    description [x'] equal to [x] but for the digits of its numbers calls
    [analyze_screen] with the action history extended by [outcome] and with
    the past actions of [x] followed by [outcome]. *)
Theorem revisited_screen_is_remembered (mission : string) (i : Z) (st : State)
    (p x : string) (data : list (string * value)) (outcome : string) (d0 d1 : Dev W)
    (p' x' n' : string) (a' : value) (d2 : Dev W) :
  skeleton x' = skeleton x ->
  think env mission (with_dev (record st i p (normalize x) data outcome d0) d1)
    = (Analysis p' x' n' a', d2) ->
  calls d2 =
    (calls d1 ++ [EvScreenshot; EvUiDump;
                  EvAnalyze p' mission (action_history st ++ [outcome]) x'
                            (default [] (screen_history st !! normalize x) ++ [outcome])])%list.
Proof.
  intros Hsk Ht. apply think_calls in Ht as [_ Ht]. rewrite Ht. unfold analyze_event.
  rewrite (normalize_skeleton (S (String.length x')) x' x) by (lia || assumption).
  cbn. rewrite lookup_insert_eq. reflexivity.
Qed.

Lemma split_no_sep sep a : no_char sep a = true ->
  (forall r, Py.split sep (a +:+ String sep r) = a :: Py.split sep r) /\
  Py.split sep a = [a].
Proof.
  induction a as [|c a IH]; intros Ha.
  - split; [intros r|]; [|reflexivity].
    change ("" +:+ String sep r) with (String sep r). cbn [Py.split].
    unfold Py.ascii_eqb. rewrite Ascii.eqb_refl. reflexivity.
  - cbn [no_char] in Ha. apply andb_true_iff in Ha as [Hc Ha]. apply negb_true_iff in Hc.
    destruct (IH Ha) as [I1 I2]. split; [intros r|].
    + change (String c a +:+ String sep r) with (String c (a +:+ String sep r)).
      cbn [Py.split]. rewrite Hc, I1. reflexivity.
    + cbn [Py.split]. rewrite Hc, I2. reflexivity.
Qed.

Lemma split_join sep (l : list string) :
  l <> [] -> Forall (fun s => no_char sep s = true) l ->
  Py.split sep (join (String sep "") l) = l.
Proof.
  intros Hne Hl. induction Hl as [|x l Hx Hl IH]; [congruence|].
  destruct (split_no_sep sep x Hx) as [H1 H2].
  destruct l as [|y l]; [exact H2|].
  change (join (String sep "") (x :: y :: l))
    with (x +:+ String sep "" +:+ join (String sep "") (y :: l)).
  change (String sep "" +:+ join (String sep "") (y :: l))
    with (String sep (join (String sep "") (y :: l))).
  rewrite H1, IH by discriminate. reflexivity.
Qed.

(** The history of the prompt can be read back: when no entry holds a line
    break, the lines of [history_string] are the entries in their order, each
    after "- "; and it is "None yet." for the empty history only. *)
Theorem history_string_lines (history : list string) :
  (history <> [] ->
   Forall (fun h => no_char newline h = true) history ->
   Py.split newline (history_string history) = map (fun h => "- " +:+ h) history) /\
  (history_string history = "None yet." <-> history = []).
Proof.
  split.
  - intros Hne Hl. destruct history as [|h history]; [congruence|].
    unfold history_string, bullets. apply split_join; [discriminate|].
    clear Hne. induction Hl as [|h' l Hh Hl IH]; cbn [map]; constructor; [|exact IH].
    change ("- " +:+ h') with (String "-" (String " " h')). cbn [no_char].
    rewrite Hh. reflexivity.
  - split; [|intros ->; reflexivity].
    destruct history as [|h history]; [reflexivity|]. unfold history_string, bullets.
    cbn [map join]. destruct (map _ history); discriminate.
Qed.

Lemma count_ops_app (p : PdfOp -> bool) l1 l2 :
  count p (l1 ++ l2) = (count p l1 + count p l2)%nat.
Proof. induction l1 as [|x l1 IH]; cbn [app count]; [reflexivity | rewrite IH; lia]. Qed.

Lemma steps_ops_counts file_exists log : forall i,
  count is_add_page (steps_ops file_exists i log) =
    (match i with O => length log - 1 | S _ => length log end)%nat /\
  count is_image (steps_ops file_exists i log) =
    count (fun entry => file_exists (screenshot_path entry)) log.
Proof.
  induction log as [|entry rest IH]; intros i.
  - destruct i; auto.
  - cbn [steps_ops]. rewrite !count_ops_app. destruct (IH (S i)) as [-> ->].
    unfold step_ops. rewrite !count_ops_app. cbn [count length].
    destruct (file_exists (screenshot_path entry)), i; cbn; lia.
Qed.

(** [generate_pdf_report] asks for a new page once at the start and once
    before every step but the first, so [max(1, len(run_log))] times (the
    pages the library adds by itself on overflow are not counted); it
    inserts a screenshot for exactly the steps whose file exists, and saving
    the document is its last call. *)
Theorem report_page_requests (file_exists : string -> bool) (timestamp mission : string)
    (log : list StepLog) (status : string) :
  count is_add_page (generate_pdf_report file_exists timestamp mission log status) =
    Nat.max 1 (length log) /\
  count is_image (generate_pdf_report file_exists timestamp mission log status) =
    count (fun entry => file_exists (screenshot_path entry)) log /\
  last (generate_pdf_report file_exists timestamp mission log status) =
    Some (Output ("reports/run_report_" +:+ timestamp +:+ ".pdf")).
Proof.
  unfold generate_pdf_report. split; [|split].
  - rewrite !count_ops_app. destruct (steps_ops_counts file_exists log 0%nat) as [-> _].
    destruct (file_exists "reports"); cbn; lia.
  - rewrite !count_ops_app. destruct (steps_ops_counts file_exists log 0%nat) as [_ ->].
    destruct (file_exists "reports"); cbn; lia.
  - rewrite !app_assoc. apply last_snoc.
Qed.

End Views.

(** ** Instances *)

Lemma exception_ends_run_witness :
  exists final,
    run Bench.env "m" 15
        (Bench.rig Bench.online [Demo.shot] [Some Demo.screen] [Some Bench.reply_list])
      = ([Faulted (AttributeError "list" "get")], final) /\
    final_status final = "Failed (Error: 'list' object has no attribute 'get')" /\
    run_log final = [].
Proof.
  destruct (exception_ends_run Bench.env "m" 15
              (Bench.rig Bench.online [Demo.shot] [Some Demo.screen] [Some Bench.reply_list])
              0 []
              (initial (Bench.rig Bench.online [Demo.shot] [Some Demo.screen]
                                  [Some Bench.reply_list]))
              (AttributeError "list" "get"))
    as (final & Hr & Hs & _ & _ & Hl);
    [lia | reflexivity | vm_compute; reflexivity |].
  exists final. split; [exact Hr|]. split; [exact Hs | exact Hl].
Defined.

Lemma no_budget_no_pass_witness :
  -2 <= 0 /\
  run Demo.env "m" (-2) (Demo.phone [Demo.shot] [Some Demo.screen] [Some Demo.reply_complete])
    = ([], with_status
             (initial (Demo.phone [Demo.shot] [Some Demo.screen] [Some Demo.reply_complete]))
             "Failed (Max steps reached)").
Proof. split; [lia | apply no_budget_no_pass; lia]. Defined.


Lemma get_screen_size_reads_wm_size_witness :
  get_screen_size Demo.env (Demo.device (Demo.phone [] [] [])) =
    (Ok (Some (1080, 1920)), {| world := Demo.phone [] [] []; calls := [EvShell "wm size"] |}).
Proof.
  apply (get_screen_size_reads_wm_size Demo.env (Demo.device (Demo.phone [] [] []))
           1080 1920 "" (Demo.phone [] [] [])); [lia | lia | reflexivity | reflexivity].
Defined.

Lemma tap_point_within_bounds_witness :
  exists tap_x tap_y,
    tap_point (VStr (bounds_literal 0 12 1080 200)) = Ok (tap_x, tap_y) /\
    0 <= tap_x <= 1080 /\ 12 <= tap_y <= 200.
Proof. apply tap_point_within_bounds; lia. Defined.

Lemma tap_without_bounds_witness :
  dispatch Demo.env (VStr "IN_PROGRESS") (VStr "TAP") [("type", VStr "TAP")] Demo.screen
           (Demo.device (Demo.phone [] [] [])) =
    (Ok "Failed to tap: bounds string was empty.", Demo.device (Demo.phone [] [] [])).
Proof. apply tap_without_bounds. reflexivity. Defined.

Lemma scroll_gestures_witness :
  calls (snd (perform_scroll Demo.env (VStr "down") (Demo.device (Demo.phone [] [] [])))) =
    [EvShell "wm size"; EvShell "input swipe 540 1536 540 384 500"] /\
  calls (snd (perform_scroll Demo.env (VStr "up") (Demo.device (Demo.phone [] [] [])))) =
    [EvShell "wm size"; EvShell "input swipe 540 384 540 1536 500"].
Proof.
  apply (scroll_gestures Demo.env (Demo.device (Demo.phone [] [] []))
           {| world := Demo.phone [] [] []; calls := [EvShell "wm size"] |} 1080 1920);
    [reflexivity | lia | lia].
Defined.

Lemma tapped_element_is_named_witness :
  fst (perform_tap Bench.env (VStr "[0,12][1080,200]") Demo.screen
         {| world := Bench.rig Bench.online [] [] []; calls := [] |})
    = "Tapped on element with text 'Item 7'".
Proof.
  destruct (tapped_element_is_named Bench.env "[0,12][1080,200]" Demo.screen
              {| world := Bench.rig Bench.online [] [] []; calls := [] |}
              0 12 1080 200 "" (Bench.rig Bench.online [] [] []))
    as [Hn _]; [reflexivity | reflexivity |].
  apply (Hn [] [("text", "Item 7"); ("bounds", "[0,12][1080,200]")] []);
    [reflexivity | constructor | reflexivity].
Defined.

Lemma revisited_screen_is_remembered_witness :
  skeleton Demo.screen' = skeleton Demo.screen /\
  calls (snd (think Demo.env "m"
                (with_dev
                   (record (initial (Demo.phone [Demo.shot] [Some Demo.screen']
                                                [Some Demo.reply_paused]))
                           0 "screenshots/screenshot_1.png" (normalize Demo.screen) []
                           "Scrolled down" (Demo.device (Demo.phone [] [] [])))
                   (Demo.device (Demo.phone [Demo.shot] [Some Demo.screen']
                                            [Some Demo.reply_paused]))))) =
    [EvScreenshot; EvUiDump;
     EvAnalyze "screenshots/screenshot_1.png" "m" ["Scrolled down"] Demo.screen'
               ["Scrolled down"]].
Proof.
  split; [vm_compute; reflexivity|].
  apply (revisited_screen_is_remembered Demo.env "m" 0
           (initial (Demo.phone [Demo.shot] [Some Demo.screen'] [Some Demo.reply_paused]))
           "screenshots/screenshot_1.png" Demo.screen [] "Scrolled down"
           (Demo.device (Demo.phone [] [] []))
           (Demo.device (Demo.phone [Demo.shot] [Some Demo.screen'] [Some Demo.reply_paused]))
           "screenshots/screenshot_1.png" Demo.screen' (normalize Demo.screen')
           (VDict [("status", VStr "PAUSED")]));
    vm_compute; reflexivity.
Defined.

Lemma history_string_lines_witness :
  Py.split newline (history_string ["Scrolled down"; "Executed 'go back'"]) =
    ["- Scrolled down"; "- Executed 'go back'"].
Proof.
  destruct (history_string_lines ["Scrolled down"; "Executed 'go back'"]) as [H _].
  apply H; [discriminate | repeat constructor].
Defined.

(** ** Outcomes and records *)

Section Outcomes.
Context {W : Type} (env : Collaborators W).

(** The run log has one record for every pass that recorded a step or
    completed, whatever way the run ends. *)
Theorem run_log_counts_recording_passes (mission : string) (max_steps : Z) (w : W) :
  length (run_log (snd (run env mission max_steps w))) =
    count appends (fst (run env mission max_steps w)).
Proof.
  destruct (run_unfold env mission max_steps w) as (exit & st & Hl & -> & _).
  destruct (loop_inv env _ _ _ _ _ _ Hl) as (_ & Hr & _). exact Hr.
Qed.

Lemma describe_element_prefix bounds_str xml_content :
  String.prefix "element with " (describe_element env bounds_str xml_content) = true.
Proof.
  unfold describe_element.
  destruct (xml_nodes env xml_content) as [nodes|]; [|reflexivity].
  destruct (find _ nodes) as [attrib|]; [|reflexivity].
  destruct (truthy_str (assoc attrib "text")); [reflexivity|].
  destruct (truthy_str (assoc attrib "content-desc")); reflexivity.
Qed.

Lemma prefix_self p : forall r, String.prefix p (p +:+ r) = true.
Proof.
  induction p as [|a p IH]; intros r.
  - change ("" +:+ r) with r. destruct r; reflexivity.
  - change (String a p +:+ r) with (String a (p +:+ r)). cbn [String.prefix].
    destruct (ascii_dec a a); [apply IH | congruence].
Qed.

Lemma perform_tap_outcome bounds_str xml_content (d : Dev W) :
  known_outcome (fst (perform_tap env bounds_str xml_content d)) = true.
Proof.
  unfold perform_tap. destruct (negb (truthy bounds_str)); [reflexivity|].
  destruct (tap_point bounds_str) as [[x y]|e]; [|reflexivity].
  destruct (device_shell env (tap_command x y) d) as [[out|e] d']; [|reflexivity].
  cbn [fst]. unfold known_outcome.
  pose proof (describe_element_prefix bounds_str xml_content) as H.
  assert (String.prefix "Tapped on element with "
            ("Tapped on " +:+ describe_element env bounds_str xml_content) = true) as ->.
  { destruct (describe_element env bounds_str xml_content) as [|c s]; [discriminate|].
    exact H. }
  rewrite orb_true_r. reflexivity.
Qed.

Lemma perform_go_back_outcome (d : Dev W) :
  known_outcome (fst (perform_go_back env d)) = true.
Proof.
  unfold perform_go_back.
  destruct (device_shell env "input keyevent 4" d) as [[out|e] d']; [reflexivity|].
  cbn [fst]. unfold known_outcome.
  rewrite (prefix_self "Failed to execute 'go back'. Error: "). reflexivity.
Qed.

Lemma perform_scroll_outcome direction (d : Dev W) :
  match fst (perform_scroll env direction d) with
  | Ok s => known_outcome s = true
  | Raise _ => True
  end.
Proof.
  unfold perform_scroll.
  destruct (get_screen_size env d) as [[[[w h]|]|e] d']; cbn [fst]; try exact I; try reflexivity.
  destruct ((w =? 0) || (h =? 0)); [reflexivity|].
  assert (Hsw : forall from to done, known_outcome done = true ->
            match fst (swipe env w h from to done d') with
            | Ok s => known_outcome s = true
            | Raise _ => True
            end).
  { intros from to done Hd. unfold swipe.
    destruct (Py.int_mul_float h from), (Py.int_mul_float h to); cbn [fst]; try exact I.
    destruct (device_shell env _ d') as [[out|e] d'']; cbn [fst]; [exact Hd | exact I]. }
  destruct (eq_str direction "down"); [apply Hsw; reflexivity|].
  destruct (eq_str direction "up"); [apply Hsw; reflexivity|].
  cbn [fst]. unfold known_outcome. rewrite (prefix_self "Scroll direction '").
  apply orb_true_r.
Qed.

Lemma dispatch_outcome status action_type fields xml_content (d : Dev W) :
  match fst (dispatch env status action_type fields xml_content d) with
  | Ok s => known_outcome s = true
  | Raise _ => True
  end.
Proof.
  unfold dispatch. destruct (eq_str status "IN_PROGRESS"); [|reflexivity].
  destruct (eq_str action_type "TAP").
  { pose proof (perform_tap_outcome (get fields "bounds" VNone) xml_content d) as H.
    destruct (perform_tap env _ xml_content d). exact H. }
  destruct (eq_str action_type "GO_BACK").
  { pose proof (perform_go_back_outcome d) as H. destruct (perform_go_back env d). exact H. }
  destruct (eq_str action_type "SCROLL"); [apply perform_scroll_outcome | reflexivity].
Qed.

Lemma body_known_outcome mission i (st : State) :
  Forall (fun entry => known_outcome (action entry) = true) (run_log st) ->
  Forall (fun entry => known_outcome (action entry) = true)
         (run_log (snd (body env mission i st))).
Proof.
  intros H. unfold body.
  destruct (think env mission st) as [[| | |p x n a] d]; try exact H.
  unfold act. destruct a as [| | | | |l|data]; try exact H.
  destruct (get data "action" (VDict [])) as [| | | | |l|fields]; try exact H.
  pose proof (dispatch_outcome (get data "status" VNone) (get fields "type" VNone)
                fields x d) as Hd.
  destruct (dispatch env _ _ fields x d) as [[outcome|e] d']; cbn [fst] in Hd; [|exact H].
  destruct (eq_str (get data "status" VNone) "COMPLETE"); cbn;
    (apply Forall_app; split; [exact H | repeat constructor; exact Hd]).
Qed.

(** Every action written to the run log is one of the outcomes of the
    dispatcher: "No action taken.", a tap report or a tap failure, a go back
    report or failure, "Scrolled down", "Scrolled up", the missing screen
    size, or the unsupported direction. *)
Theorem run_log_actions_are_outcomes (mission : string) (max_steps : Z) (w : W) :
  Forall (fun entry => known_outcome (action entry) = true)
         (run_log (snd (run env mission max_steps w))).
Proof.
  destruct (run_unfold env mission max_steps w) as (exit & st & Hl & -> & _).
  pose proof (loop_preserves env
                (fun st => Forall (fun entry => known_outcome (action entry) = true) (run_log st))
                mission (body_known_outcome mission) (Py.range max_steps) (initial w)) as H.
  rewrite Hl in H. apply H. constructor.
Qed.

(** Success is never reported without the device: a tap outcome that starts
    with "Tapped on" means the tap command was issued and returned, and the
    go back outcome is "Executed 'go back'" exactly when its key event
    returned. *)
Theorem success_needs_the_device (bounds_str : value) (xml_content : string) (d : Dev W) :
  (String.prefix "Tapped on" (fst (perform_tap env bounds_str xml_content d)) = true ->
   exists tap_x tap_y out w',
     tap_point bounds_str = Ok (tap_x, tap_y) /\
     shell env (tap_command tap_x tap_y) (world d) = (Ok out, w') /\
     snd (perform_tap env bounds_str xml_content d) =
       emit (EvShell (tap_command tap_x tap_y)) w' d) /\
  (fst (perform_go_back env d) = "Executed 'go back'" <->
   exists out w', shell env "input keyevent 4" (world d) = (Ok out, w')).
Proof.
  split.
  - unfold perform_tap. destruct (negb (truthy bounds_str)); [discriminate|].
    destruct (tap_point bounds_str) as [[x y]|e]; [|discriminate].
    unfold device_shell.
    destruct (shell env (tap_command x y) (world d)) as [[out|e] w'] eqn:Hs; [|discriminate].
    intros _. exists x, y, out, w'. auto.
  - unfold perform_go_back, device_shell.
    destruct (shell env "input keyevent 4" (world d)) as [[out|e] w']; cbn [fst].
    + split; [eauto | reflexivity].
    + split; [discriminate|]. intros (out & w'' & H). discriminate.
Qed.

(** The keys of the screen history are normalised descriptions: at the end
    of a run every screen that has a list is the normal form of some
    description, and so holds no digit. *)
Theorem screen_history_keys_are_normalised (mission : string) (max_steps : Z) (w : W)
    (fp : string) :
  screen_history (snd (run env mission max_steps w)) !! fp <> None ->
  (exists xml_content, fp = normalize xml_content) /\ no_digit fp = true.
Proof.
  intros H.
  assert (Hex : exists xml_content, fp = normalize xml_content).
  { revert H. unfold run.
    pose proof (loop_preserves env
                  (fun st => screen_history st !! fp <> None ->
                             exists xml_content, fp = normalize xml_content)
                  mission) as Hp.
    specialize (Hp ltac:(
      intros i st Hst; destruct (body env mission i st) as [o st'] eqn:Hb; cbn [snd];
      body_cases Hb; try exact Hst;
      apply think_calls in Ht as [-> _]; cbn [with_dev with_status record screen_history];
      (destruct (decide (normalize x = fp)) as [<-|Hne];
       [intros _; eauto | rewrite lookup_insert_ne by assumption; exact Hst]))
      (Py.range max_steps) (initial w)).
    destruct (loop env mission (Py.range max_steps) (initial w)) as [[exit os] st].
    cbn [snd] in *.
    match goal with |- context [finish mission ?s] =>
      destruct (finish_calls mission s) as (_ & _ & _ & _ & ->) end.
    intros H. apply Hp; [cbn; rewrite lookup_empty; congruence|].
    destruct exit; exact H. }
  split; [exact Hex|]. destruct Hex as [x ->]. apply sub_digits_no_digit.
Qed.

End Outcomes.

Lemma success_needs_the_device_witness :
  exists tap_x tap_y out w',
    tap_point (VStr "[10,20][30,40]") = Ok (tap_x, tap_y) /\
    shell Demo.env (tap_command tap_x tap_y) (world (Demo.device (Demo.phone [] [] [])))
      = (Ok out, w').
Proof.
  destruct (success_needs_the_device Demo.env (VStr "[10,20][30,40]") Demo.screen
              (Demo.device (Demo.phone [] [] []))) as [H _].
  destruct (H eq_refl) as (x & y & out & w' & Hp & Hs & _).
  exists x, y, out, w'. split; [exact Hp | exact Hs].
Defined.

Lemma screen_history_keys_are_normalised_witness :
  exists xml_content,
    normalize Demo.screen = normalize xml_content.
Proof.
  destruct (screen_history_keys_are_normalised Demo.env "m" 1
              (Demo.phone [Demo.shot] [Some Demo.screen] [Some Demo.reply_paused])
              (normalize Demo.screen)) as [H _]; [vm_compute; discriminate|].
  exact H.
Defined.
